(** * gorm0log: a gorm logger on top of zerolog

    A shallow embedding of [logger.go], [config.go] and the error helpers of
    [helper.go], together with the part of the three collaborating packages
    the adapter calls ([errors], [zerolog], [gorm.io/gorm/logger]).

    - Go integers ([logger.LogLevel], [zerolog.Level], [time.Duration],
      [int64] row counts) are [Z]; only comparisons are performed on them.
    - A nil-able Go value (an [error], a [*zerolog.Event], a func field of
      [Config], a slice) is an [option]; [None] is nil.
    - What a call does to the outside world is threaded explicitly: the lines
      handed to the log writer and the number of times the lazy
      (sql, rows) supplier has been invoked.
    - [*Logger] values live in a heap indexed by addresses, so that
      [LogMode] can be seen to allocate rather than to update. *)

From Stdlib Require Import ZArith List String Bool Lia.
From stdpp Require Import base gmap.
Import ListNotations.
Local Open Scope string_scope.
Local Open Scope list_scope.
Local Open Scope Z_scope.

(** ** Package [errors] *)

Module errors.

(** Error values as the adapter can observe them: a leaf created by
    [errors.New] (a pointer, identified by its address [id]), a value
    wrapping one error ([Unwrap() error], as [fmt.Errorf] with [%w] builds)
    and a value wrapping several ([Unwrap() []error], as [errors.Join]
    builds).  The [error] interface itself may be nil. *)
#[local] Unset Elimination Schemes.
Inductive error_value : Type :=
| errorString (id : N) (s : string)
| wrapError (msg : string) (err : error_value)
| joinError (errs : list error_value).
#[local] Set Elimination Schemes.

Definition error := option error_value.

(** [err == target] on interface values holding pointers.  Only leaves
    carry an identity in this model; the targets the adapter matches
    against are leaves. *)
Definition same (err target : error_value) : bool :=
  match err, target with
  | errorString i _, errorString j _ => N.eqb i j
  | _, _ => false
  end.

(** The loop of [errors.is]: compare, then unwrap. *)
Fixpoint is_ (target err : error_value) {struct err} : bool :=
  same err target ||
  match err with
  | errorString _ _ => false
  | wrapError _ inner => is_ target inner
  | joinError errs => existsb (is_ target) errs
  end.

(** [errors.Is]: with a nil on either side it is [err == target]. *)
Definition Is (err target : error) : bool :=
  match err, target with
  | Some e, Some t => is_ t e
  | None, None => true
  | _, _ => false
  end.



End errors.

(** ** Package [zerolog]

    The event builder as the adapter uses it.  A handle is its writer and
    its threshold; hooks and samplers installed on a handle, and the process
    exit or panic that follows a line at the fatal or panic level, are left
    out. *)

Module zerolog.

Definition Level := Z.

Definition DebugLevel : Level := 0.
Definition InfoLevel : Level := 1.
Definition WarnLevel : Level := 2.
Definition ErrorLevel : Level := 3.
Definition FatalLevel : Level := 4.
Definition PanicLevel : Level := 5.
Definition NoLevel : Level := 6.
Definition Disabled : Level := 7.
Definition TraceLevel : Level := -1.

(** A field attached to an event, in the order of attachment. *)
Inductive Field : Type :=
| FStr (key val : string)
| FInt64 (key : string) (val : Z)
| FDur (key : string) (val : Z)
| FErr (err : errors.error_value).

(** [zerolog.Event]: its level and the fields appended so far.  The level
    is the one the event was created at, or [Disabled] once discarded. *)
Record Event : Type := mkEvent { elevel : Level; buf : list Field }.

(** [*zerolog.Event]; every method accepts the nil receiver. *)
Definition EventPtr := option Event.

(** [zerolog.Logger] as far as filtering goes: whether it has a writer
    (the zero value has none) and its own threshold. *)
Record Logger : Type := mkLogger { w : bool; level : Level }.

(** What [Event.write] hands to the writer. *)
Record Line : Type := mkLine { llevel : Level; fields : list Field; message : string }.

Definition Logger_Level (l : Logger) (lvl : Level) : Logger :=
  {| w := w l; level := lvl |}.

Definition Enabled (e : EventPtr) : bool :=
  match e with
  | Some ev => negb (elevel ev =? Disabled)
  | None => false
  end.

(** [Event.Discard] marks its receiver [Disabled] and returns nil; the
    adapter only uses what it returns. *)
Definition Discard (e : EventPtr) : EventPtr := None.

Definition append (f : Field) (e : EventPtr) : EventPtr :=
  match e with
  | Some ev => Some {| elevel := elevel ev; buf := buf ev ++ [f] |}
  | None => None
  end.

Definition Str (e : EventPtr) (key val : string) : EventPtr := append (FStr key val) e.
Definition Int64 (e : EventPtr) (key : string) (i : Z) : EventPtr := append (FInt64 key i) e.
Definition Dur (e : EventPtr) (key : string) (d : Z) : EventPtr := append (FDur key d) e.

(** [Event.Err] attaches nothing for a nil error. *)
Definition Err (e : EventPtr) (err : errors.error) : EventPtr :=
  match err with
  | Some x => append (FErr x) e
  | None => e
  end.

Section Global.
(** The process-wide threshold read by [GlobalLevel()]. *)
Variable GlobalLevel : Level.

Definition should (l : Logger) (lvl : Level) : bool :=
  if negb (w l) then false
  else if (lvl <? level l) || (lvl <? GlobalLevel) then false
  else true.

(** [Logger.newEvent]: nil unless the level passes the filter. *)
Definition newEvent (l : Logger) (lvl : Level) : EventPtr :=
  if should l lvl then Some {| elevel := lvl; buf := [] |} else None.

Definition Logger_Trace (l : Logger) : EventPtr := newEvent l TraceLevel.
Definition Logger_Debug (l : Logger) : EventPtr := newEvent l DebugLevel.
Definition Logger_Info (l : Logger) : EventPtr := newEvent l InfoLevel.
Definition Logger_Warn (l : Logger) : EventPtr := newEvent l WarnLevel.
Definition Logger_Error (l : Logger) : EventPtr := newEvent l ErrorLevel.
Definition Logger_Fatal (l : Logger) : EventPtr := newEvent l FatalLevel.
End Global.

(** Effects: the lines written so far, next to a state [S] of the host
    (here, the supplier's invocation counter). *)
Definition M (S A : Type) : Type := list Line * S -> A * (list Line * S).

Definition ret {S A} (a : A) : M S A := fun s => (a, s).
Definition bind {S A B} (m : M S A) (k : A -> M S B) : M S B :=
  fun s => let (a, s') := m s in k a s'.

Definition write {S} (ln : Line) : M S unit :=
  fun s => (tt, (fst s ++ [ln], snd s)).

(** [Event.Func]: run [f] on the event only if it is enabled.  [f] mutates
    the event it is given; here it returns the mutated event, and so does
    [Func] (the Go method returns its receiver). *)
Definition Func {S} (e : EventPtr) (f : EventPtr -> M S EventPtr) : M S EventPtr :=
  if Enabled e then f e else ret e.

(** [Event.Msg]: a nil event does nothing; a discarded one is not
    written.  The event keeps its level afterwards. *)
Definition Msg {S} (e : EventPtr) (msg : string) : M S unit :=
  match e with
  | None => ret tt
  | Some ev =>
      if negb (elevel ev =? Disabled)
      then write {| llevel := elevel ev; fields := buf ev; message := msg |}
      else ret tt
  end.

(** [Event.Msgf]: the message is formatted only for a non-nil event. *)
Definition Msgf {S V} (Sprintf : string -> list V -> string)
    (e : EventPtr) (format : string) (v : list V) : M S unit :=
  match e with
  | None => ret tt
  | Some _ => Msg e (Sprintf format v)
  end.

End zerolog.

Notation "'let*' x ':=' m 'in' k" := (zerolog.bind m (fun x => k))
  (at level 10, x name, m at level 100, k at level 200).
Notation "m ';;' k" := (zerolog.bind m (fun _ => k))
  (at level 100, k at level 200, right associativity, only parsing).

(** ** Package [gorm.io/gorm/logger] and the sentinels of [gorm] *)

Module logger.
Definition LogLevel := Z.
(** [Silent LogLevel = iota + 1], then [Error], [Warn], [Info]. *)
Definition Silent : LogLevel := 1.
Definition Error : LogLevel := 2.
Definition Warn : LogLevel := 3.
Definition Info : LogLevel := 4.
End logger.

Module gorm.
(** Two of the package-level [errors.New] values of gorm. *)
Definition recordNotFound : errors.error_value :=
  errors.errorString 1 "record not found".
Definition duplicatedKey : errors.error_value :=
  errors.errorString 2 "duplicated key not allowed".
Definition ErrRecordNotFound : errors.error := Some recordNotFound.
Definition ErrDuplicatedKey : errors.error := Some duplicatedKey.
End gorm.

(** ** Packages [strings] and [runtime], as [LogSource] uses them *)

Module strings.
(** [strings.Contains]: [substr] starts at some position of [s]. *)
Fixpoint Contains (s substr : string) : bool :=
  String.prefix substr s ||
  match s with
  | EmptyString => false
  | String _ rest => Contains rest substr
  end.
End strings.

Module runtime.
(** The file and line of one frame of the call stack. *)
Record Frame : Type := mkFrame { file : string; line : Z }.

(** [runtime.Caller(skip)] on a stack whose frame 0 is the caller of
    [Caller]; [None] is [ok = false]. *)
Definition Caller (stack : list Frame) (skip : nat) : option Frame :=
  nth_error stack skip.
End runtime.

(** ** Package [gorm0log] *)

Section gorm0log.

(** [context.Context], [time.Time] and the values behind [interface{}]
    are opaque to the adapter.  [Since] is what [time.Since] answers when
    [Trace] asks; [Sprintf] is [fmt.Sprintf]. *)
Variables Context Time any : Type.
Variable Since : Time -> Z.
Variable Sprintf : string -> list any -> string.
Variable GlobalLevel : zerolog.Level.

(** *** logger.go: level mapping *)

Definition DefaultLogLevelMap (i : logger.LogLevel) : zerolog.Level :=
  if i <=? logger.Silent then zerolog.Disabled
  else if i =? logger.Error then zerolog.ErrorLevel
  else if i =? logger.Warn then zerolog.WarnLevel
  else zerolog.DebugLevel.

Definition WithTimeTracking (i : logger.LogLevel) : zerolog.Level :=
  if i <=? logger.Silent then zerolog.Disabled
  else if i =? logger.Error then zerolog.ErrorLevel
  else if i =? logger.Warn then zerolog.WarnLevel
  else zerolog.TraceLevel.

(** *** config.go *)

Definition Selector := zerolog.Logger -> zerolog.EventPtr.

Definition Ignore : Selector :=
  fun l => zerolog.Discard (zerolog.Logger_Trace GlobalLevel l).
Definition UseFatal : Selector := zerolog.Logger_Fatal GlobalLevel.
Definition UseError : Selector := zerolog.Logger_Error GlobalLevel.
Definition UseWarn : Selector := zerolog.Logger_Warn GlobalLevel.
Definition UseInfo : Selector := zerolog.Logger_Info GlobalLevel.
Definition UseDebug : Selector := zerolog.Logger_Debug GlobalLevel.
Definition UseTrace : Selector := zerolog.Logger_Trace GlobalLevel.

(** The host's [Customize] callback is given a live event and may attach
    fields to it or discard it: a function on events. *)
Record Config : Type := mkConfig {
  SlowThreshold : Z;
  SlowLevel : option Selector;
  Duration : string;
  ErrorLevel : option (errors.error -> zerolog.Logger -> zerolog.EventPtr);
  ParameterizedQueries : bool;
  DumpLevel : option Selector;
  DumpWithDuration : bool;
  SQL : string;
  AffectedRows : string;
  Customize : option (Context -> zerolog.Event -> zerolog.Event)
}.

Definition key (val defaults : string) : string :=
  if negb (val =? "")%string then val else defaults.

Definition sqlKey (c : Config) : string := key (SQL c) "sql".
Definition durKey (c : Config) : string := key (Duration c) "duration".
Definition rowKey (c : Config) : string := key (AffectedRows c) "affected_rows".

Definition errLevel (c : Config) (err : errors.error) (l : zerolog.Logger)
    : zerolog.EventPtr :=
  match ErrorLevel c with
  | None => zerolog.Err (UseError l) err
  | Some sel => sel err l
  end.

Definition level (val : option Selector) (defaults : Selector) : Selector :=
  match val with
  | None => defaults
  | Some v => v
  end.

Definition slowLevel (c : Config) (l : zerolog.Logger) : zerolog.EventPtr :=
  level (SlowLevel c) UseWarn l.

Definition dumpLevel (c : Config) (l : zerolog.Logger) : zerolog.EventPtr :=
  level (DumpLevel c) UseDebug l.

(** The lazy supplier [f func() (string, int64)]: [f n] is what its
    invocation number [n] answers.  The host state counts invocations. *)
Definition Supplier := nat -> string * Z.

Definition M := zerolog.M nat.

Definition call (f : Supplier) : M (string * Z) :=
  fun s => (f (snd s), (fst s, S (snd s))).

Definition custom (c : Config) (ctx : Context) : zerolog.EventPtr -> M zerolog.EventPtr :=
  fun ev =>
    match Customize c with
    | None => zerolog.ret ev
    | Some g => zerolog.ret (option_map (g ctx) ev)
    end.

Definition logErr (c : Config) (err : errors.error) (f : Supplier)
    : zerolog.EventPtr -> M zerolog.EventPtr :=
  fun ev =>
    let* r := call f in
    let (sql, rows) := r in
    let ev := zerolog.Str (zerolog.Err ev err) (sqlKey c) sql in
    zerolog.ret (if negb (rows =? -1) then zerolog.Int64 ev (rowKey c) rows else ev).

Definition logSlow (c : Config) (dur : Z) (f : Supplier)
    : zerolog.EventPtr -> M zerolog.EventPtr :=
  fun ev =>
    let* r := call f in
    let (sql, rows) := r in
    let ev := zerolog.Str (zerolog.Dur ev (durKey c) dur) (sqlKey c) sql in
    zerolog.ret (if negb (rows =? -1) then zerolog.Int64 ev (rowKey c) rows else ev).

Definition logDump (c : Config) (dur : Z) (f : Supplier)
    : zerolog.EventPtr -> M zerolog.EventPtr :=
  fun ev =>
    let ev := if DumpWithDuration c then zerolog.Dur ev (durKey c) dur else ev in
    let* r := call f in
    let (sql, rows) := r in
    let ev := zerolog.Str ev (sqlKey c) sql in
    zerolog.ret (if negb (rows =? -1) then zerolog.Int64 ev (rowKey c) rows else ev).

(** *** logger.go: the adapter *)

(** [Logger] embeds a [zerolog.Logger] and a [Config]. *)
Record Logger : Type := mkLogger {
  Logger_Logger : zerolog.Logger;
  Logger_Config : Config
}.

(** The methods below take the struct their receiver [l *Logger] points
    to; they only read it. *)

Definition Info (l : Logger) (ctx : Context) (msg : string) (args : list any) : M unit :=
  let* ev := zerolog.Func (zerolog.Logger_Info GlobalLevel (Logger_Logger l))
                          (custom (Logger_Config l) ctx) in
  zerolog.Msgf Sprintf ev msg args.

Definition Warn (l : Logger) (ctx : Context) (msg : string) (args : list any) : M unit :=
  let* ev := zerolog.Func (zerolog.Logger_Warn GlobalLevel (Logger_Logger l))
                          (custom (Logger_Config l) ctx) in
  zerolog.Msgf Sprintf ev msg args.

Definition Error (l : Logger) (ctx : Context) (msg : string) (args : list any) : M unit :=
  let* ev := zerolog.Func (zerolog.Logger_Error GlobalLevel (Logger_Logger l))
                          (custom (Logger_Config l) ctx) in
  zerolog.Msgf Sprintf ev msg args.

(** The tail of [Trace], after the error branch. *)
Definition Trace_slow_or_dump (l : Logger) (ctx : Context) (dur : Z) (f : Supplier) : M unit :=
  let c := Logger_Config l in
  if (SlowThreshold c >? 0) && (dur >=? SlowThreshold c) then
    let* ev := zerolog.Func (slowLevel c (Logger_Logger l)) (custom c ctx) in
    let* ev := zerolog.Func ev (logSlow c dur f) in
    zerolog.Msg ev "sql query time exceeds threshold"
  else
    let* ev := zerolog.Func (dumpLevel c (Logger_Logger l)) (custom c ctx) in
    let* ev := zerolog.Func ev (logDump c dur f) in
    zerolog.Msg ev "dump sql".

(** [ev] and the results of the two [Func] calls are one pointer, so
    [ev.Enabled()] after [Msg] reads the event as the chain left it. *)
Definition Trace (l : Logger) (ctx : Context) (begin : Time) (f : Supplier)
    (err : errors.error) : M unit :=
  let c := Logger_Config l in
  let dur := Since begin in
  match err with
  | Some _ =>
      let ev := errLevel c err (Logger_Logger l) in
      let* ev := zerolog.Func ev (custom c ctx) in
      let* ev := zerolog.Func ev (logErr c err f) in
      zerolog.Msg ev "a sql error occurred" ;;
      if zerolog.Enabled ev then zerolog.ret tt
      else Trace_slow_or_dump l ctx dur f
  | None => Trace_slow_or_dump l ctx dur f
  end.

(** A [[]interface{}] is nil ([None]) or a list of values. *)
Definition ParamsFilter (l : Logger) (ctx : Context) (sql : string)
    (params : option (list any)) : string * option (list any) :=
  if ParameterizedQueries (Logger_Config l) then (sql, None) else (sql, params).

(** Addresses of [Logger] structs and the heap holding them. *)
Definition loc := positive.
Abbreviation heap := (gmap loc Logger).

(** [LogMode] dereferences its receiver (a nil or dangling one panics:
    [None]) and returns the address of a newly allocated struct. *)
Definition LogMode (h : heap) (l : loc) (lv : logger.LogLevel) : option (loc * heap) :=
  match h !! l with
  | None => None
  | Some s =>
      let lvl :=
        if lv <=? logger.Silent then zerolog.Disabled
        else if lv =? logger.Error then zerolog.ErrorLevel
        else if lv =? logger.Warn then zerolog.WarnLevel
        else zerolog.DebugLevel in
      let l' := fresh (dom h) in
      Some (l', <[l' := {| Logger_Logger := zerolog.Logger_Level (Logger_Logger s) lvl;
                           Logger_Config := Logger_Config s |}]> h)
  end.

(** *** helper.go *)

Definition LogErrorAt (level : Selector) (cmpErr : errors.error -> bool)
    : errors.error -> zerolog.Logger -> zerolog.EventPtr :=
  fun err l => if cmpErr err then level l else UseError l.

Definition CommonError (err : errors.error) : bool :=
  errors.Is err gorm.ErrRecordNotFound || errors.Is err gorm.ErrDuplicatedKey.

Definition IgnoreCommonErr (e : errors.error) (l : zerolog.Logger) : zerolog.EventPtr :=
  LogErrorAt UseTrace CommonError e l.

Definition DebugCommonErr (e : errors.error) (l : zerolog.Logger) : zerolog.EventPtr :=
  LogErrorAt UseDebug CommonError e l.

Section LogSource.
(** [LogSource] only attaches a string and an int to the event it is
    given; it is stated over any event builder with these two methods. *)
Variable Ev : Type.
Variable Str : Ev -> string -> string -> Ev.
Variable Int : Ev -> string -> Z -> Ev.

(** The loop [for ok { ... }] of [LogSource], with [cnt] its counter.
    Every turn raises [cnt], and [Caller] fails past the end of the stack,
    so a stack of [fuel] frames allows for at most [fuel] turns. *)
Fixpoint LogSource_loop (keywords : list string) (stack : list runtime.Frame)
    (fuel cnt : nat) (ev : Ev) : Ev :=
  match fuel with
  | O => ev
  | S fuel' =>
      match runtime.Caller stack cnt with
      | None => ev
      | Some fr =>
          if existsb (strings.Contains (runtime.file fr)) keywords
          then Int (Str ev "source_file" (runtime.file fr)) "source_line" (runtime.line fr)
          else LogSource_loop keywords stack fuel' (S cnt) ev
      end
  end.

(** The callback [LogSource(keywords...)] returns, run on the call stack
    [stack] it finds itself on. *)
Definition LogSource (keywords : list string)
    : Context -> list runtime.Frame -> Ev -> Ev :=
  fun _ stack ev => LogSource_loop keywords stack (length stack) 2 ev.
End LogSource.

(** *** Observing a call *)

(** The zero values of [Config] and [Logger]. *)
Definition Config_zero : Config :=
  {| SlowThreshold := 0; SlowLevel := None; Duration := ""; ErrorLevel := None;
     ParameterizedQueries := false; DumpLevel := None; DumpWithDuration := false;
     SQL := ""; AffectedRows := ""; Customize := None |}.

Definition Logger_zero : Logger :=
  {| Logger_Logger := {| zerolog.w := false; zerolog.level := 0 |};
     Logger_Config := Config_zero |}.

Definition State : Type := list zerolog.Line * nat.

(** The lines a computation hands to the writer, and the number of times
    it invokes the supplier, when started in state [s]. *)
Definition written_by {A} (m : M A) (s : State) : list zerolog.Line :=
  drop (length (fst s)) (fst (snd (m s))).

Definition calls_by {A} (m : M A) (s : State) : nat :=
  (snd (snd (m s)) - snd s)%nat.

(** The event a selector produced, once [Func(l.custom(ctx))] has run. *)
Definition customized (c : Config) (ctx : Context) (ev : zerolog.EventPtr)
    : zerolog.EventPtr :=
  fst (zerolog.Func ev (custom c ctx) ([], 0%nat)).

(** The messages of the three paths of [Trace]. *)
Definition path_messages : list string :=
  ["a sql error occurred"; "sql query time exceeds threshold"; "dump sql"].

Definition path_lines (out : list zerolog.Line) : list zerolog.Line :=
  filter (fun ln => existsb (String.eqb (zerolog.message ln)) path_messages) out.


(** The line [Msg] writes for event [ev] once [added] has been attached
    to it: none for a nil or discarded event. *)
Definition line_of (ev : zerolog.EventPtr) (added : list zerolog.Field) (msg : string)
    : list zerolog.Line :=
  match ev with
  | Some e =>
      if negb (zerolog.elevel e =? zerolog.Disabled)
      then [{| zerolog.llevel := zerolog.elevel e;
               zerolog.fields := zerolog.buf e ++ added;
               zerolog.message := msg |}]
      else []
  | None => []
  end.

(** The affected-rows field as the three formatters attach it. *)
Definition rows_field (c : Config) (rows : Z) : list zerolog.Field :=
  if negb (rows =? -1) then [zerolog.FInt64 (rowKey c) rows] else [].

(** Whether the error branch of [Trace] returns early. *)
Definition stops_at_error (c : Config) (ctx : Context) (zl : zerolog.Logger)
    (err : errors.error) : bool :=
  match err with
  | Some _ => zerolog.Enabled (customized c ctx (errLevel c err zl))
  | None => false
  end.

(** Whether [Trace] reaches the slow branch once past the error branch. *)
Definition slow (c : Config) (dur : Z) : bool :=
  (SlowThreshold c >? 0) && (dur >=? SlowThreshold c).

(** The verbosity values gorm declares. *)
Definition recognized (i : logger.LogLevel) : bool :=
  existsb (Z.eqb i) [logger.Silent; logger.Error; logger.Warn; logger.Info].

(** A method call through a receiver stored at [l]. *)
Definition recv {R} (h : heap) (l : loc) (m : Logger -> R) : option R :=
  match h !! l with
  | Some s => Some (m s)
  | None => None
  end.

(** ** Properties *)

(** *** Level mapping *)

(** C3 (as amended): both level mappings are functions defined on every
    verbosity value; everything at or below [Silent] maps to [Disabled],
    [Error] and [Warn] map to their namesakes, and every value above [Warn],
    recognized or not, maps to the branch of [Info]: debug for
    [DefaultLogLevelMap], trace for [WithTimeTracking]. *)
Theorem level_maps_total (i : logger.LogLevel) :
  (i <= logger.Silent ->
     DefaultLogLevelMap i = zerolog.Disabled /\ WithTimeTracking i = zerolog.Disabled) /\
  (i = logger.Error ->
     DefaultLogLevelMap i = zerolog.ErrorLevel /\ WithTimeTracking i = zerolog.ErrorLevel) /\
  (i = logger.Warn ->
     DefaultLogLevelMap i = zerolog.WarnLevel /\ WithTimeTracking i = zerolog.WarnLevel) /\
  (logger.Warn < i ->
     DefaultLogLevelMap i = DefaultLogLevelMap logger.Info /\
     DefaultLogLevelMap i = zerolog.DebugLevel /\
     WithTimeTracking i = WithTimeTracking logger.Info /\
     WithTimeTracking i = zerolog.TraceLevel).
Proof.
  unfold DefaultLogLevelMap, WithTimeTracking, logger.Silent, logger.Error,
    logger.Warn, logger.Info.
  repeat split; intros;
    repeat match goal with
    | |- context [?a <=? ?b] => destruct (Z.leb_spec a b); try lia
    | |- context [?a =? ?b] => destruct (Z.eqb_spec a b); try lia
    end; reflexivity.
Qed.

(** *** Running [Trace] *)

Lemma Func_custom c ctx ev (s : State) :
  zerolog.Func ev (custom c ctx) s = (customized c ctx ev, s).
Proof.
  unfold customized, zerolog.Func, custom.
  destruct (zerolog.Enabled ev), (Customize c); reflexivity.
Qed.

Lemma customized_disabled c ctx ev :
  zerolog.Enabled ev = false -> customized c ctx ev = ev.
Proof. intros H. unfold customized, zerolog.Func. rewrite H. reflexivity. Qed.

(** A hook that leaves the level of events alone, as one that only
    attaches fields does, does not change whether an event is enabled. *)
Lemma customized_keeps_Enabled c ctx ev :
  match Customize c with
  | Some g => forall e, zerolog.elevel (g ctx e) = zerolog.elevel e
  | None => True
  end ->
  zerolog.Enabled (customized c ctx ev) = zerolog.Enabled ev.
Proof.
  unfold customized, zerolog.Func, custom.
  destruct (zerolog.Enabled ev) eqn:E; [|intros _; exact E].
  destruct (Customize c) as [g|]; [|intros _; exact E].
  intros Hg. destruct ev as [e|]; [|discriminate].
  simpl in *. rewrite Hg. exact E.
Qed.

Lemma Enabled_Some ev :
  zerolog.Enabled ev = true ->
  exists e, ev = Some e /\ zerolog.elevel e <> zerolog.Disabled.
Proof.
  destruct ev as [e|]; simpl; [|discriminate].
  intros H. exists e. split; [reflexivity|].
  destruct (Z.eqb_spec (zerolog.elevel e) zerolog.Disabled); [discriminate|assumption].
Qed.

Lemma line_of_length ev added msg :
  length (line_of ev added msg) = if zerolog.Enabled ev then 1%nat else 0%nat.
Proof.
  destruct ev as [e|]; simpl; [|reflexivity].
  destruct (zerolog.elevel e =? zerolog.Disabled); reflexivity.
Qed.

Lemma line_of_In ev added msg ln :
  In ln (line_of ev added msg) ->
  exists e, ev = Some e /\ zerolog.elevel e <> zerolog.Disabled /\
    ln = {| zerolog.llevel := zerolog.elevel e;
            zerolog.fields := zerolog.buf e ++ added;
            zerolog.message := msg |}.
Proof.
  destruct ev as [e|]; simpl; [|intros []].
  destruct (Z.eqb_spec (zerolog.elevel e) zerolog.Disabled); simpl; [intros []|].
  intros [<-|[]]. exists e. auto.
Qed.

(** The tail of [Trace]: one branch, at most one line, one supplier call
    per line. *)
Lemma Trace_slow_or_dump_run l ctx dur f out n :
  Trace_slow_or_dump l ctx dur f (out, n) =
    let c := Logger_Config l in
    let new :=
      if slow c dur
      then line_of (customized c ctx (slowLevel c (Logger_Logger l)))
             (zerolog.FDur (durKey c) dur :: zerolog.FStr (sqlKey c) (fst (f n))
                :: rows_field c (snd (f n)))
             "sql query time exceeds threshold"
      else line_of (customized c ctx (dumpLevel c (Logger_Logger l)))
             ((if DumpWithDuration c then [zerolog.FDur (durKey c) dur] else [])
                ++ zerolog.FStr (sqlKey c) (fst (f n)) :: rows_field c (snd (f n)))
             "dump sql" in
    (tt, (out ++ new, (n + length new)%nat)).
Proof.
  unfold Trace_slow_or_dump, slow. cbv zeta.
  destruct ((SlowThreshold (Logger_Config l) >? 0) && (dur >=? SlowThreshold (Logger_Config l))).
  - unfold zerolog.bind at 1. rewrite Func_custom.
    destruct (customized (Logger_Config l) ctx (slowLevel (Logger_Config l) (Logger_Logger l)))
      as [e|]; [|simpl; rewrite app_nil_r, Nat.add_0_r; reflexivity].
    unfold zerolog.Func, zerolog.Msg, zerolog.Enabled, logSlow, call, rows_field, line_of,
      zerolog.ret, zerolog.write, zerolog.bind.
    destruct (zerolog.elevel e =? zerolog.Disabled) eqn:E; simpl;
      [rewrite ?E; simpl; rewrite app_nil_r, Nat.add_0_r; reflexivity|].
    destruct (f n) as [sql rows]; simpl.
    destruct (rows =? -1); simpl; rewrite ?E; simpl;
      rewrite Nat.add_1_r, <- ?app_assoc; reflexivity.
  - unfold zerolog.bind at 1. rewrite Func_custom.
    destruct (customized (Logger_Config l) ctx (dumpLevel (Logger_Config l) (Logger_Logger l)))
      as [e|]; [|simpl; rewrite app_nil_r, Nat.add_0_r; reflexivity].
    unfold zerolog.Func, zerolog.Msg, zerolog.Enabled, logDump, call, rows_field, line_of,
      zerolog.ret, zerolog.write, zerolog.bind.
    destruct (zerolog.elevel e =? zerolog.Disabled) eqn:E; simpl;
      [rewrite ?E; simpl; rewrite app_nil_r, Nat.add_0_r; reflexivity|].
    destruct (f n) as [sql rows]; simpl.
    destruct (DumpWithDuration (Logger_Config l)), (rows =? -1); simpl; rewrite ?E; simpl;
      rewrite Nat.add_1_r, <- ?app_assoc; reflexivity.
Qed.

(** [Trace] with an error: the error line and nothing else when the error
    event is enabled, the tail otherwise. *)
Lemma Trace_run l ctx begin f err out n :
  Trace l ctx begin f err (out, n) =
    let c := Logger_Config l in
    match err with
    | Some x =>
        let ev := customized c ctx (errLevel c err (Logger_Logger l)) in
        if zerolog.Enabled ev
        then (tt, (out ++ line_of ev
                     (zerolog.FErr x :: zerolog.FStr (sqlKey c) (fst (f n))
                        :: rows_field c (snd (f n)))
                     "a sql error occurred", S n))
        else Trace_slow_or_dump l ctx (Since begin) f (out, n)
    | None => Trace_slow_or_dump l ctx (Since begin) f (out, n)
    end.
Proof.
  unfold Trace. cbv zeta. destruct err as [x|]; [|reflexivity].
  unfold zerolog.bind at 1. rewrite Func_custom.
  destruct (customized (Logger_Config l) ctx
              (errLevel (Logger_Config l) (Some x) (Logger_Logger l))) as [e|];
    [|reflexivity].
  unfold zerolog.Func, zerolog.Msg, zerolog.Enabled, logErr, call, rows_field, line_of,
    zerolog.ret, zerolog.write, zerolog.bind.
  destruct (zerolog.elevel e =? zerolog.Disabled) eqn:E; simpl; [rewrite ?E; reflexivity|].
  destruct (f n) as [sql rows]; simpl.
  destruct (rows =? -1); simpl; rewrite ?E; simpl; rewrite <- ?app_assoc; reflexivity.
Qed.

Lemma observed {A} (m : M A) (s : State) a new k :
  m s = (a, (fst s ++ new, (snd s + k)%nat)) ->
  written_by m s = new /\ calls_by m s = k /\ snd (snd (m s)) = (snd s + k)%nat.
Proof.
  intros H. unfold written_by, calls_by. rewrite H. simpl.
  rewrite drop_app_length. repeat split. lia.
Qed.

(** The three ways through [Trace], with the state each one leaves. *)
Lemma Trace_cases l ctx begin f err (s : State) :
  let c := Logger_Config l in
  let zl := Logger_Logger l in
  let dur := Since begin in
  let sql := fst (f (snd s)) in
  let rows := snd (f (snd s)) in
  exists new,
    Trace l ctx begin f err s = (tt, (fst s ++ new, (snd s + length new)%nat)) /\
    ((exists x, err = Some x /\ stops_at_error c ctx zl err = true /\
        new = line_of (customized c ctx (errLevel c err zl))
                (zerolog.FErr x :: zerolog.FStr (sqlKey c) sql :: rows_field c rows)
                "a sql error occurred") \/
     (stops_at_error c ctx zl err = false /\ slow c dur = true /\
        new = line_of (customized c ctx (slowLevel c zl))
                (zerolog.FDur (durKey c) dur :: zerolog.FStr (sqlKey c) sql
                   :: rows_field c rows)
                "sql query time exceeds threshold") \/
     (stops_at_error c ctx zl err = false /\ slow c dur = false /\
        new = line_of (customized c ctx (dumpLevel c zl))
                ((if DumpWithDuration c then [zerolog.FDur (durKey c) dur] else [])
                   ++ zerolog.FStr (sqlKey c) sql :: rows_field c rows)
                "dump sql")).
Proof.
  destruct s as [out n]. cbv zeta. simpl fst. simpl snd.
  rewrite Trace_run. cbv zeta.
  assert (Htail : forall b, stops_at_error (Logger_Config l) ctx (Logger_Logger l) err = b ->
            b = false ->
            exists new, Trace_slow_or_dump l ctx (Since begin) f (out, n)
                        = (tt, (out ++ new, (n + length new)%nat)) /\
              (stops_at_error (Logger_Config l) ctx (Logger_Logger l) err = false /\
               slow (Logger_Config l) (Since begin) = true /\
               new = line_of (customized (Logger_Config l) ctx
                                (slowLevel (Logger_Config l) (Logger_Logger l)))
                       (zerolog.FDur (durKey (Logger_Config l)) (Since begin)
                          :: zerolog.FStr (sqlKey (Logger_Config l)) (fst (f n))
                          :: rows_field (Logger_Config l) (snd (f n)))
                       "sql query time exceeds threshold" \/
               stops_at_error (Logger_Config l) ctx (Logger_Logger l) err = false /\
               slow (Logger_Config l) (Since begin) = false /\
               new = line_of (customized (Logger_Config l) ctx
                                (dumpLevel (Logger_Config l) (Logger_Logger l)))
                       ((if DumpWithDuration (Logger_Config l)
                         then [zerolog.FDur (durKey (Logger_Config l)) (Since begin)] else [])
                          ++ zerolog.FStr (sqlKey (Logger_Config l)) (fst (f n))
                          :: rows_field (Logger_Config l) (snd (f n)))
                       "dump sql")).
  { intros b Hb ->. rewrite Trace_slow_or_dump_run. cbv zeta.
    destruct (slow (Logger_Config l) (Since begin)); eexists; split; try reflexivity; auto. }
  destruct err as [x|].
  - destruct (zerolog.Enabled (customized (Logger_Config l) ctx
                (errLevel (Logger_Config l) (Some x) (Logger_Logger l)))) eqn:E.
    + eexists. split.
      * rewrite line_of_length, E, Nat.add_1_r. reflexivity.
      * left. exists x. simpl. auto.
    + destruct (Htail false E eq_refl) as (new & Hrun & Hnew).
      exists new. split; [exact Hrun|]. right. exact Hnew.
  - destruct (Htail false eq_refl eq_refl) as (new & Hrun & Hnew).
    exists new. split; [exact Hrun|]. right. exact Hnew.
Qed.

Lemma path_lines_line_of ev added msg :
  In msg path_messages -> path_lines (line_of ev added msg) = line_of ev added msg.
Proof.
  intros Hin. destruct ev as [e|]; simpl; [|reflexivity].
  destruct (negb (zerolog.elevel e =? zerolog.Disabled)); [|reflexivity].
  unfold path_lines. simpl filter.
  destruct Hin as [<-|[<-|[<-|[]]]]; reflexivity.
Qed.

(** C1 (as amended): a call to [Trace] writes path messages only and at
    most one of them, never two.  It writes exactly one when the event of
    the branch it ends on is enabled once the customization hook has run:
    the error event if that stops the call, else the slow event when a
    positive threshold is reached, else the dump event.  It writes none when
    that event is disabled. *)
Theorem Trace_at_most_one_message l ctx begin f err (s : State) :
  let c := Logger_Config l in
  let zl := Logger_Logger l in
  let out := written_by (Trace l ctx begin f err) s in
  let final :=
    if stops_at_error c ctx zl err then customized c ctx (errLevel c err zl)
    else if slow c (Since begin) then customized c ctx (slowLevel c zl)
    else customized c ctx (dumpLevel c zl) in
  path_lines out = out /\
  (length (path_lines out) <= 1)%nat /\
  (zerolog.Enabled final = true -> length (path_lines out) = 1%nat) /\
  (zerolog.Enabled final = false -> out = []).
Proof.
  cbv zeta.
  destruct (Trace_cases l ctx begin f err s) as (new & Hrun & Hnew).
  destruct (observed _ _ _ _ _ Hrun) as (-> & _ & _).
  destruct Hnew as [(x & -> & Hstop & ->)|[(Hstop & Hslow & ->)|(Hstop & Hslow & ->)]];
    rewrite Hstop, ?Hslow, path_lines_line_of, line_of_length
      by (unfold path_messages; simpl; auto);
    match goal with |- context [zerolog.Enabled ?p] => destruct p as [e|] end;
    simpl; try (destruct (zerolog.elevel e =? zerolog.Disabled); simpl);
    repeat split; intros; try reflexivity; try discriminate; lia.
Qed.


(** C4 (as amended): when no enabled error event stops the call, a
    strictly positive [SlowThreshold] is configured and the elapsed time
    reaches it, the call writes the slow message if the slow event is
    enabled after the customization hook: one line, built by the slow
    formatter, carrying the elapsed time under the duration key.  If the
    slow event is disabled nothing is written.  In neither case is the dump
    message written. *)
Theorem Trace_slow_path l ctx begin f err (s : State) :
  let c := Logger_Config l in
  let zl := Logger_Logger l in
  let ev := customized c ctx (slowLevel c zl) in
  let out := written_by (Trace l ctx begin f err) s in
  stops_at_error c ctx zl err = false ->
  0 < SlowThreshold c ->
  SlowThreshold c <= Since begin ->
  (zerolog.Enabled ev = true ->
     exists e, ev = Some e /\
       out = [{| zerolog.llevel := zerolog.elevel e;
                 zerolog.fields :=
                   zerolog.buf e ++
                     zerolog.FDur (durKey c) (Since begin)
                       :: zerolog.FStr (sqlKey c) (fst (f (snd s)))
                       :: rows_field c (snd (f (snd s)));
                 zerolog.message := "sql query time exceeds threshold" |}]) /\
  (zerolog.Enabled ev = false -> out = []) /\
  (forall ln, In ln out -> zerolog.message ln <> "dump sql").
Proof.
  cbv zeta. intros Hstop Hpos Hdur.
  assert (Hslow : slow (Logger_Config l) (Since begin) = true).
  { unfold slow. apply andb_true_intro. split; lia. }
  destruct (Trace_cases l ctx begin f err s) as (new & Hrun & Hnew).
  destruct (observed _ _ _ _ _ Hrun) as (-> & _ & _).
  destruct Hnew as [(x & -> & Hstop' & ->)|[(_ & _ & ->)|(_ & Hslow' & ->)]];
    [congruence| |congruence].
  repeat split.
  - intros E. destruct (Enabled_Some _ E) as (e & He & Hlvl).
    exists e. split; [exact He|]. rewrite He. simpl.
    destruct (Z.eqb_spec (zerolog.elevel e) zerolog.Disabled); [contradiction|reflexivity].
  - intros E.
    match goal with |- line_of ?p ?a ?m = [] =>
      pose proof (line_of_length p a m) as Hlen; rewrite E in Hlen;
      destruct (line_of p a m); [reflexivity|discriminate]
    end.
  - intros ln Hin. apply line_of_In in Hin. destruct Hin as (e & _ & _ & ->).
    simpl. discriminate.
Qed.

(** C5: a call to [Trace] invokes the supplier at most once, and exactly
    as often as it writes a line; a line is only written for an enabled
    event; and when every event the call can select (the error event for a
    non-nil error, the slow event, the dump event) is disabled, the supplier
    is not invoked at all. *)
Theorem supplier_called_at_most_once l ctx begin f err (s : State) :
  let c := Logger_Config l in
  let zl := Logger_Logger l in
  let out := written_by (Trace l ctx begin f err) s in
  let calls := calls_by (Trace l ctx begin f err) s in
  (calls <= 1)%nat /\
  snd (snd (Trace l ctx begin f err s)) = (snd s + calls)%nat /\
  calls = length out /\
  (forall ln, In ln out -> zerolog.llevel ln <> zerolog.Disabled) /\
  ((err <> None -> zerolog.Enabled (errLevel c err zl) = false) ->
   zerolog.Enabled (slowLevel c zl) = false ->
   zerolog.Enabled (dumpLevel c zl) = false ->
   calls = 0%nat /\ out = []).
Proof.
  cbv zeta.
  destruct (Trace_cases l ctx begin f err s) as (new & Hrun & Hnew).
  destruct (observed _ _ _ _ _ Hrun) as (-> & -> & ->).
  assert (Hone : (length new <= 1)%nat).
  { destruct Hnew as [(x & _ & _ & ->)|[(_ & _ & ->)|(_ & _ & ->)]];
      rewrite line_of_length;
      match goal with |- context [zerolog.Enabled ?p] => destruct (zerolog.Enabled p) end; lia. }
  repeat split; try assumption.
  - intros ln Hin.
    destruct Hnew as [(x & _ & _ & ->)|[(_ & _ & ->)|(_ & _ & ->)]];
      apply line_of_In in Hin; destruct Hin as (e & _ & Hlvl & ->); exact Hlvl.
  - destruct Hnew as [(x & -> & Hstop & ->)|[(_ & _ & ->)|(_ & _ & ->)]];
      rewrite line_of_length.
    + rewrite customized_disabled by (apply H; discriminate). rewrite H by discriminate.
      reflexivity.
    + rewrite customized_disabled, H0 by assumption. reflexivity.
    + rewrite customized_disabled, H1 by assumption. reflexivity.
  - destruct Hnew as [(x & -> & Hstop & ->)|[(_ & _ & ->)|(_ & _ & ->)]].
    + rewrite customized_disabled by (apply H; discriminate).
      destruct (errLevel _ _ _) as [e|]; [|reflexivity].
      simpl in *. specialize (H ltac:(discriminate)). rewrite H. reflexivity.
    + rewrite customized_disabled by assumption.
      destruct (slowLevel _ _) as [e|]; [|reflexivity]. simpl in *. rewrite H0. reflexivity.
    + rewrite customized_disabled by assumption.
      destruct (dumpLevel _ _) as [e|]; [|reflexivity]. simpl in *. rewrite H1. reflexivity.
Qed.



(** *** Mode switching *)

Lemma DefaultLogLevelMap_range lv :
  In (DefaultLogLevelMap lv)
     [zerolog.Disabled; zerolog.ErrorLevel; zerolog.WarnLevel; zerolog.DebugLevel].
Proof.
  unfold DefaultLogLevelMap.
  destruct (lv <=? logger.Silent), (lv =? logger.Error), (lv =? logger.Warn);
    simpl; auto.
Qed.

Lemma LogMode_run (h : heap) l s lv :
  h !! l = Some s ->
  LogMode h l lv =
    Some (fresh (dom h),
          <[fresh (dom h) :=
              {| Logger_Logger :=
                   zerolog.Logger_Level (Logger_Logger s) (DefaultLogLevelMap lv);
                 Logger_Config := Logger_Config s |}]> h).
Proof. intros H. unfold LogMode. rewrite H. reflexivity. Qed.

Lemma fresh_not_allocated (h : heap) : h !! fresh (dom h) = None.
Proof. apply not_elem_of_dom. apply is_fresh. Qed.

(** C7: [LogMode] on a receiver stored at [l] returns an address that was
    not allocated before, hence distinct from [l]; the struct stored there
    has the receiver's [Config] and the receiver's logger handle with the
    new threshold; the struct at [l], and at every other address allocated
    before, is what it was, so [Info], [Warn], [Error], [Trace] and [LogMode]
    called through [l] afterwards do what they did before. *)
Theorem LogMode_leaves_receiver (h : heap) l s lv :
  h !! l = Some s ->
  exists l' h',
    LogMode h l lv = Some (l', h') /\
    l' <> l /\ h !! l' = None /\
    h' !! l' = Some {| Logger_Logger :=
                         {| zerolog.w := zerolog.w (Logger_Logger s);
                            zerolog.level := DefaultLogLevelMap lv |};
                       Logger_Config := Logger_Config s |} /\
    h' !! l = Some s /\
    (forall q, q <> l' -> h' !! q = h !! q) /\
    (forall ctx msg args,
       recv h' l (fun r => Info r ctx msg args) = recv h l (fun r => Info r ctx msg args) /\
       recv h' l (fun r => Warn r ctx msg args) = recv h l (fun r => Warn r ctx msg args) /\
       recv h' l (fun r => Error r ctx msg args) = recv h l (fun r => Error r ctx msg args)) /\
    (forall ctx begin f err,
       recv h' l (fun r => Trace r ctx begin f err) =
       recv h l (fun r => Trace r ctx begin f err)) /\
    (forall lv2, exists q1 h1 q2 h2 s2,
       LogMode h l lv2 = Some (q1, h1) /\ LogMode h' l lv2 = Some (q2, h2) /\
       h1 !! q1 = Some s2 /\ h2 !! q2 = Some s2).
Proof.
  intros Hl. rewrite (LogMode_run h l s lv Hl).
  pose proof (fresh_not_allocated h) as Hfresh.
  assert (Hne : fresh (dom h) <> l) by (intros E; rewrite E in Hfresh; congruence).
  assert (Hkeep : (<[fresh (dom h) :=
                      {| Logger_Logger :=
                           zerolog.Logger_Level (Logger_Logger s) (DefaultLogLevelMap lv);
                         Logger_Config := Logger_Config s |}]> h) !! l = Some s).
  { rewrite lookup_insert_ne by exact Hne. exact Hl. }
  eexists _, _. split; [reflexivity|].
  split; [exact Hne|]. split; [exact Hfresh|].
  split; [apply lookup_insert_eq|]. split; [exact Hkeep|].
  split; [intros q Hq; apply lookup_insert_ne; congruence|].
  split; [intros; unfold recv; rewrite Hkeep, Hl; auto|].
  split; [intros; unfold recv; rewrite Hkeep, Hl; auto|].
  intros lv2. rewrite (LogMode_run h l s lv2 Hl).
  rewrite (LogMode_run _ l s lv2 Hkeep).
  eexists _, _, _, _, _. split; [reflexivity|]. split; [reflexivity|].
  split; apply lookup_insert_eq.
Qed.

(** C10: the threshold [LogMode] installs is [DefaultLogLevelMap] of the
    requested verbosity.  It is never the trace level, so on the adapter
    [LogMode] returns no trace-level event is enabled: an adapter whose
    handle was set up with [WithTimeTracking] at [Info], on which trace
    events are enabled, loses them at any mode switch. *)
Theorem LogMode_installs_DefaultLogLevelMap (h : heap) l s lv :
  h !! l = Some s ->
  exists l' h' s',
    LogMode h l lv = Some (l', h') /\ h' !! l' = Some s' /\
    zerolog.level (Logger_Logger s') = DefaultLogLevelMap lv /\
    zerolog.level (Logger_Logger s') <> zerolog.TraceLevel /\
    zerolog.level (Logger_Logger s') <> WithTimeTracking logger.Info /\
    UseTrace (Logger_Logger s') = None /\
    (zerolog.w (Logger_Logger s) = true ->
     zerolog.level (Logger_Logger s) = WithTimeTracking logger.Info ->
     GlobalLevel <= zerolog.TraceLevel ->
     zerolog.Enabled (UseTrace (Logger_Logger s)) = true).
Proof.
  intros Hl. rewrite (LogMode_run h l s lv Hl).
  eexists _, _, _. split; [reflexivity|]. split; [apply lookup_insert_eq|].
  simpl. pose proof (DefaultLogLevelMap_range lv) as Hr.
  assert (Hge : 0 <= DefaultLogLevelMap lv).
  { simpl in Hr. unfold zerolog.Disabled, zerolog.ErrorLevel, zerolog.WarnLevel,
      zerolog.DebugLevel in Hr. lia. }
  unfold zerolog.TraceLevel, WithTimeTracking, UseTrace, zerolog.Logger_Trace,
    zerolog.newEvent, zerolog.should, zerolog.TraceLevel. simpl.
  repeat split; try lia.
  - destruct (negb (zerolog.w (Logger_Logger s))); [reflexivity|].
    destruct (Z.ltb_spec (-1) (DefaultLogLevelMap lv)); [reflexivity|lia].
  - intros Hw Hlvl Hgl. rewrite Hw, Hlvl. simpl.
    destruct (Z.ltb_spec (-1) GlobalLevel); [lia|reflexivity].
Qed.

(** *** Parameter redaction *)

(** C9: with [ParameterizedQueries] set, [ParamsFilter] returns the SQL
    text as given and a nil parameter list; with the flag unset it returns
    the SQL text and the parameter list as given. *)
Theorem ParamsFilter_redacts l ctx sql params :
  (ParameterizedQueries (Logger_Config l) = true ->
     ParamsFilter l ctx sql params = (sql, None)) /\
  (ParameterizedQueries (Logger_Config l) = false ->
     ParamsFilter l ctx sql params = (sql, params)).
Proof. unfold ParamsFilter. split; intros ->; reflexivity. Qed.

(** *** Error classification *)




(** ** Further properties *)

(** *** Plain messages *)

Lemma message_run (sel : Selector) l ctx msg args (s : State) :
  (let* ev := zerolog.Func (sel (Logger_Logger l)) (custom (Logger_Config l) ctx) in
   zerolog.Msgf Sprintf ev msg args) s =
  (tt, (fst s ++ line_of (customized (Logger_Config l) ctx (sel (Logger_Logger l))) []
                   (Sprintf msg args),
        (snd s + 0)%nat)).
Proof.
  destruct s as [out n]. unfold zerolog.bind at 1. rewrite Func_custom.
  destruct (customized (Logger_Config l) ctx (sel (Logger_Logger l))) as [e|]; simpl;
    [|rewrite app_nil_r, Nat.add_0_r; reflexivity].
  unfold zerolog.Msgf, zerolog.Msg, zerolog.write, zerolog.ret.
  destruct (zerolog.elevel e =? zerolog.Disabled); simpl;
    rewrite ?app_nil_r, Nat.add_0_r; reflexivity.
Qed.

Lemma newEvent_cases (zl : zerolog.Logger) lvl :
  zerolog.newEvent GlobalLevel zl lvl =
    if zerolog.should GlobalLevel zl lvl
    then Some {| zerolog.elevel := lvl; zerolog.buf := [] |} else None.
Proof. reflexivity. Qed.

Lemma should_spec (zl : zerolog.Logger) lvl :
  zerolog.should GlobalLevel zl lvl = true <->
  zerolog.w zl = true /\ zerolog.level zl <= lvl /\ GlobalLevel <= lvl.
Proof.
  unfold zerolog.should. destruct (zerolog.w zl); simpl.
  - destruct (Z.ltb_spec lvl (zerolog.level zl)) as [Ha|Ha],
      (Z.ltb_spec lvl GlobalLevel) as [Hb|Hb]; simpl;
      split; intros Hc; try discriminate; try (repeat split; (reflexivity || lia)); lia.
  - split; [discriminate|]. intros [Hc _]. discriminate.
Qed.


(** X2: on one adapter without a customization hook, whenever [Info]
    writes a line so does [Warn], and whenever [Warn] writes a line so does
    [Error]. *)
Theorem plain_messages_monotone l ctx msg args (s : State) :
  Customize (Logger_Config l) = None ->
  (written_by (Info l ctx msg args) s <> [] -> written_by (Warn l ctx msg args) s <> []) /\
  (written_by (Warn l ctx msg args) s <> [] -> written_by (Error l ctx msg args) s <> []).
Proof.
  intros Hnil.
  assert (H : forall (sel : Selector),
            written_by (let* ev := zerolog.Func (sel (Logger_Logger l))
                                     (custom (Logger_Config l) ctx) in
                        zerolog.Msgf Sprintf ev msg args) s <> [] <->
            zerolog.Enabled (sel (Logger_Logger l)) = true).
  { intros sel. destruct (observed _ _ _ _ _ (message_run sel l ctx msg args s)) as (-> & _).
    pose proof (line_of_length (customized (Logger_Config l) ctx (sel (Logger_Logger l))) []
                  (Sprintf msg args)) as Hlen.
    rewrite customized_keeps_Enabled in Hlen by (rewrite Hnil; exact I).
    destruct (zerolog.Enabled (sel (Logger_Logger l)));
      destruct (line_of _ _ _); simpl in Hlen; split; intros; congruence. }
  unfold Info, Warn, Error.
  rewrite (H (zerolog.Logger_Info GlobalLevel)), (H (zerolog.Logger_Warn GlobalLevel)),
    (H (zerolog.Logger_Error GlobalLevel)).
  assert (Hen : forall lvl, lvl <> zerolog.Disabled ->
            zerolog.Enabled (zerolog.newEvent GlobalLevel (Logger_Logger l) lvl) =
            zerolog.should GlobalLevel (Logger_Logger l) lvl).
  { intros lvl Hlvl. rewrite newEvent_cases.
    destruct (zerolog.should _ _ _); simpl; [|reflexivity].
    destruct (Z.eqb_spec lvl zerolog.Disabled); [contradiction|reflexivity]. }
  unfold zerolog.Logger_Info, zerolog.Logger_Warn, zerolog.Logger_Error.
  rewrite !Hen by discriminate. rewrite !should_spec.
  unfold zerolog.InfoLevel, zerolog.WarnLevel, zerolog.ErrorLevel.
  split; intros (Hw & H1 & H2); repeat split; (assumption || lia).
Qed.

(** *** More on [Trace] *)

Lemma line_of_enabled ev added msg :
  zerolog.Enabled ev = true ->
  exists e, ev = Some e /\
    line_of ev added msg =
      [{| zerolog.llevel := zerolog.elevel e;
          zerolog.fields := zerolog.buf e ++ added;
          zerolog.message := msg |}].
Proof.
  intros E. destruct (Enabled_Some _ E) as (e & -> & Hlvl). exists e.
  split; [reflexivity|]. simpl.
  destruct (Z.eqb_spec (zerolog.elevel e) zerolog.Disabled); [contradiction|reflexivity].
Qed.

Lemma line_of_disabled ev added msg :
  zerolog.Enabled ev = false -> line_of ev added msg = [].
Proof.
  intros E. pose proof (line_of_length ev added msg) as Hlen. rewrite E in Hlen.
  destruct (line_of ev added msg); [reflexivity|discriminate].
Qed.

Lemma slow_spec c dur :
  slow c dur = true <-> 0 < SlowThreshold c /\ SlowThreshold c <= dur.
Proof. unfold slow. rewrite andb_true_iff. lia. Qed.

(** X3: when no enabled error event stops the call and the slow branch
    is not taken, [Trace] writes the dump message if the dump event is
    enabled after the customization hook: one line whose formatter fields
    are the elapsed time under the duration key if [DumpWithDuration] is set
    and not otherwise, then the SQL text, then the affected rows.  If the
    dump event is disabled nothing is written and the supplier is not
    invoked. *)
Theorem Trace_dump_path l ctx begin f err (s : State) :
  let c := Logger_Config l in
  let zl := Logger_Logger l in
  let ev := customized c ctx (dumpLevel c zl) in
  stops_at_error c ctx zl err = false ->
  slow c (Since begin) = false ->
  (zerolog.Enabled ev = true ->
     exists e, ev = Some e /\
       Trace l ctx begin f err s =
         (tt, (fst s ++
                 [{| zerolog.llevel := zerolog.elevel e;
                     zerolog.fields :=
                       zerolog.buf e ++
                         (if DumpWithDuration c
                          then [zerolog.FDur (durKey c) (Since begin)] else [])
                         ++ zerolog.FStr (sqlKey c) (fst (f (snd s)))
                              :: rows_field c (snd (f (snd s)));
                     zerolog.message := "dump sql" |}],
               S (snd s)))) /\
  (zerolog.Enabled ev = false -> Trace l ctx begin f err s = (tt, s)).
Proof.
  cbv zeta. intros Hstop Hslow.
  destruct (Trace_cases l ctx begin f err s) as (new & Hrun & Hnew).
  destruct Hnew as [(x & -> & Hstop' & ->)|[(_ & Hslow' & ->)|(_ & _ & ->)]];
    [congruence|congruence|].
  split; intros E.
  - destruct (line_of_enabled _
                ((if DumpWithDuration (Logger_Config l)
                  then [zerolog.FDur (durKey (Logger_Config l)) (Since begin)] else [])
                 ++ zerolog.FStr (sqlKey (Logger_Config l)) (fst (f (snd s)))
                      :: rows_field (Logger_Config l) (snd (f (snd s))))
                "dump sql" E) as (e & He & Hline).
    exists e. split; [exact He|]. rewrite Hrun, Hline. simpl. rewrite Nat.add_1_r.
    reflexivity.
  - rewrite Hrun, (line_of_disabled _ _ _ E). simpl.
    rewrite app_nil_r, Nat.add_0_r. destruct s; reflexivity.
Qed.

(** X4: the message of a line tells the branch [Trace] took.  An error
    line is only written for a non-nil error; a slow line only if
    [SlowThreshold] is strictly positive and the elapsed time has reached
    it, so a zero or negative threshold switches slow logging off; a dump
    line only if that is not so. *)
Theorem Trace_message_tells_branch l ctx begin f err (s : State) ln :
  let c := Logger_Config l in
  In ln (written_by (Trace l ctx begin f err) s) ->
  (zerolog.message ln = "a sql error occurred" -> err <> None) /\
  (zerolog.message ln = "sql query time exceeds threshold" ->
     0 < SlowThreshold c /\ SlowThreshold c <= Since begin) /\
  (zerolog.message ln = "dump sql" ->
     SlowThreshold c <= 0 \/ Since begin < SlowThreshold c).
Proof.
  cbv zeta. intros Hin.
  destruct (Trace_cases l ctx begin f err s) as (new & Hrun & Hnew).
  destruct (observed _ _ _ _ _ Hrun) as (Hw & _ & _). rewrite Hw in Hin. clear Hw Hrun.
  destruct Hnew as [(x & -> & _ & ->)|[(_ & Hslow & ->)|(_ & Hslow & ->)]];
    apply line_of_In in Hin; destruct Hin as (e & _ & _ & ->); simpl.
  - repeat split; intros; discriminate.
  - apply slow_spec in Hslow. split; [|split]; intros; try discriminate. exact Hslow.
  - split; [|split]; intros; try discriminate.
    destruct (Z_lt_le_dec 0 (SlowThreshold (Logger_Config l))) as [Hp|Hp]; [|left; exact Hp].
    destruct (Z_lt_le_dec (Since begin) (SlowThreshold (Logger_Config l))) as [Hd|Hd];
      [right; exact Hd|].
    assert (Ht : slow (Logger_Config l) (Since begin) = true) by (apply slow_spec; lia).
    congruence.
Qed.



(** *** Error routing *)

Lemma newEvent_enabled (zl : zerolog.Logger) lvl :
  lvl <> zerolog.Disabled ->
  zerolog.should GlobalLevel zl lvl = true ->
  zerolog.newEvent GlobalLevel zl lvl = Some {| zerolog.elevel := lvl; zerolog.buf := [] |} /\
  zerolog.Enabled (zerolog.newEvent GlobalLevel zl lvl) = true.
Proof.
  intros Hlvl Hs. rewrite newEvent_cases, Hs. split; [reflexivity|]. simpl.
  destruct (Z.eqb_spec lvl zerolog.Disabled); [contradiction|reflexivity].
Qed.

Lemma Trace_error_line l ctx begin f x (s : State) e :
  Customize (Logger_Config l) = None ->
  errLevel (Logger_Config l) (Some x) (Logger_Logger l) = Some e ->
  zerolog.elevel e <> zerolog.Disabled ->
  Trace l ctx begin f (Some x) s =
    (tt, (fst s ++
            [{| zerolog.llevel := zerolog.elevel e;
                zerolog.fields :=
                  zerolog.buf e ++
                    zerolog.FErr x :: zerolog.FStr (sqlKey (Logger_Config l)) (fst (f (snd s)))
                      :: rows_field (Logger_Config l) (snd (f (snd s)));
                zerolog.message := "a sql error occurred" |}],
          S (snd s))).
Proof.
  intros Hnil He Hlvl. destruct s as [out n]. rewrite Trace_run. cbv zeta.
  assert (Hc : customized (Logger_Config l) ctx
                 (errLevel (Logger_Config l) (Some x) (Logger_Logger l)) = Some e).
  { unfold customized, zerolog.Func, custom. rewrite Hnil, He.
    destruct (zerolog.Enabled (Some e)); reflexivity. }
  rewrite Hc. simpl.
  destruct (Z.eqb_spec (zerolog.elevel e) zerolog.Disabled); [contradiction|reflexivity].
Qed.

(** X6: with the default error selector ([ErrorLevel] unset) and no
    customization hook, an error the handle lets through at the error level
    is written with the error attached twice, once by the selector and once
    by the error formatter; with a selector built by [LogErrorAt] that does
    not match the error, it is attached once. *)
Theorem Trace_error_attached l ctx begin f x (s : State) :
  let c := Logger_Config l in
  let zl := Logger_Logger l in
  let rest := zerolog.FStr (sqlKey c) (fst (f (snd s))) :: rows_field c (snd (f (snd s))) in
  Customize c = None ->
  zerolog.should GlobalLevel zl zerolog.ErrorLevel = true ->
  (ErrorLevel c = None ->
     written_by (Trace l ctx begin f (Some x)) s =
       [{| zerolog.llevel := zerolog.ErrorLevel;
           zerolog.fields := zerolog.FErr x :: zerolog.FErr x :: rest;
           zerolog.message := "a sql error occurred" |}]) /\
  (forall level cmpErr,
     ErrorLevel c = Some (LogErrorAt level cmpErr) -> cmpErr (Some x) = false ->
     written_by (Trace l ctx begin f (Some x)) s =
       [{| zerolog.llevel := zerolog.ErrorLevel;
           zerolog.fields := zerolog.FErr x :: rest;
           zerolog.message := "a sql error occurred" |}]).
Proof.
  cbv zeta. intros Hnil Hs.
  destruct (newEvent_enabled (Logger_Logger l) zerolog.ErrorLevel ltac:(discriminate) Hs)
    as [Hev _].
  split.
  - intros Hdef.
    assert (He : errLevel (Logger_Config l) (Some x) (Logger_Logger l) =
                 Some {| zerolog.elevel := zerolog.ErrorLevel; zerolog.buf := [zerolog.FErr x] |}).
    { unfold errLevel, UseError, zerolog.Logger_Error. rewrite Hdef, Hev. reflexivity. }
    pose proof (Trace_error_line l ctx begin f x s _ Hnil He ltac:(discriminate)) as Hrun.
    unfold written_by. rewrite Hrun. simpl. rewrite drop_app_length. reflexivity.
  - intros level cmpErr Hsel Hcmp.
    assert (He : errLevel (Logger_Config l) (Some x) (Logger_Logger l) =
                 Some {| zerolog.elevel := zerolog.ErrorLevel; zerolog.buf := [] |}).
    { unfold errLevel. rewrite Hsel. unfold LogErrorAt, UseError, zerolog.Logger_Error.
      rewrite Hcmp, Hev. reflexivity. }
    pose proof (Trace_error_line l ctx begin f x s _ Hnil He ltac:(discriminate)) as Hrun.
    unfold written_by. rewrite Hrun. simpl. rewrite drop_app_length. reflexivity.
Qed.

(** X7: under [IgnoreCommonErr] a common error is not ignored outright
    but sent to the trace level.  If the handle filters the trace level the
    call is the call with a nil error; if the handle lets the trace level
    through (and there is no customization hook) the error line is written,
    at the trace level. *)
Theorem IgnoreCommonErr_is_trace_level l ctx begin f x (s : State) :
  let c := Logger_Config l in
  let zl := Logger_Logger l in
  ErrorLevel c = Some IgnoreCommonErr ->
  CommonError (Some x) = true ->
  (zerolog.should GlobalLevel zl zerolog.TraceLevel = false ->
     Trace l ctx begin f (Some x) s = Trace l ctx begin f None s) /\
  (zerolog.should GlobalLevel zl zerolog.TraceLevel = true -> Customize c = None ->
     written_by (Trace l ctx begin f (Some x)) s =
       [{| zerolog.llevel := zerolog.TraceLevel;
           zerolog.fields :=
             zerolog.FErr x :: zerolog.FStr (sqlKey c) (fst (f (snd s)))
               :: rows_field c (snd (f (snd s)));
           zerolog.message := "a sql error occurred" |}]).
Proof.
  cbv zeta. intros Hsel Hcommon.
  assert (He : errLevel (Logger_Config l) (Some x) (Logger_Logger l) =
               zerolog.newEvent GlobalLevel (Logger_Logger l) zerolog.TraceLevel).
  { unfold errLevel. rewrite Hsel. unfold IgnoreCommonErr, LogErrorAt.
    rewrite Hcommon. reflexivity. }
  split.
  - intros Hs. destruct s as [out n]. rewrite !Trace_run. cbv zeta.
    rewrite He, newEvent_cases, Hs.
    rewrite customized_disabled by reflexivity. reflexivity.
  - intros Hs Hnil.
    destruct (newEvent_enabled (Logger_Logger l) zerolog.TraceLevel ltac:(discriminate) Hs)
      as [Hev _].
    rewrite Hev in He.
    pose proof (Trace_error_line l ctx begin f x s _ Hnil He ltac:(discriminate)) as Hrun.
    unfold written_by. rewrite Hrun. simpl. rewrite drop_app_length. reflexivity.
Qed.

(** X8: [Ignore] answers nil on every handle, so a branch whose level is
    [Ignore] never writes: no dump line with [DumpLevel] set to it, no slow
    line with [SlowLevel] set to it, and in both cases a call that ends on
    that branch leaves the supplier alone. *)
Theorem Ignore_silences_branch l ctx begin f err (s : State) :
  let c := Logger_Config l in
  (forall zl, Ignore zl = None) /\
  (DumpLevel c = Some Ignore ->
     (forall ln, In ln (written_by (Trace l ctx begin f err) s) ->
                 zerolog.message ln <> "dump sql") /\
     (stops_at_error c ctx (Logger_Logger l) err = false -> slow c (Since begin) = false ->
      Trace l ctx begin f err s = (tt, s))) /\
  (SlowLevel c = Some Ignore ->
     (forall ln, In ln (written_by (Trace l ctx begin f err) s) ->
                 zerolog.message ln <> "sql query time exceeds threshold") /\
     (stops_at_error c ctx (Logger_Logger l) err = false -> slow c (Since begin) = true ->
      Trace l ctx begin f err s = (tt, s))).
Proof.
  cbv zeta. split; [reflexivity|].
  destruct (Trace_cases l ctx begin f err s) as (new & Hrun & Hnew).
  destruct (observed _ _ _ _ _ Hrun) as (Hw & _ & _). rewrite Hw. clear Hw.
  assert (Hsame : forall lines, lines = [] ->
            (tt, (fst s ++ lines, (snd s + length lines)%nat)) = (tt, s)).
  { intros lines ->. simpl. rewrite app_nil_r, Nat.add_0_r. destruct s; reflexivity. }
  split; intros Hsel.
  - assert (Hd : customized (Logger_Config l) ctx
                   (dumpLevel (Logger_Config l) (Logger_Logger l)) = None).
    { unfold dumpLevel, level. rewrite Hsel. apply customized_disabled. reflexivity. }
    destruct Hnew as [(x & -> & Hstop & ->)|[(Hstop & Hslow & ->)|(Hstop & Hslow & ->)]].
    + split; [|intros Hf _; rewrite Hstop in Hf; discriminate].
      intros ln Hin. apply line_of_In in Hin. destruct Hin as (e & _ & _ & ->). discriminate.
    + split; [|intros _ Hf; rewrite Hslow in Hf; discriminate].
      intros ln Hin. apply line_of_In in Hin. destruct Hin as (e & _ & _ & ->). discriminate.
    + rewrite Hd in *. split; [intros ln []|]. intros _ _. rewrite Hrun. apply Hsame. reflexivity.
  - assert (Hd : customized (Logger_Config l) ctx
                   (slowLevel (Logger_Config l) (Logger_Logger l)) = None).
    { unfold slowLevel, level. rewrite Hsel. apply customized_disabled. reflexivity. }
    destruct Hnew as [(x & -> & Hstop & ->)|[(Hstop & Hslow & ->)|(Hstop & Hslow & ->)]].
    + split; [|intros Hf _; rewrite Hstop in Hf; discriminate].
      intros ln Hin. apply line_of_In in Hin. destruct Hin as (e & _ & _ & ->). discriminate.
    + rewrite Hd in *. split; [intros ln []|]. intros _ _. rewrite Hrun. apply Hsame. reflexivity.
    + split; [|intros _ Hf; rewrite Hslow in Hf; discriminate].
      intros ln Hin. apply line_of_In in Hin. destruct Hin as (e & _ & _ & ->). discriminate.
Qed.

(** *** More on mode switching *)

Lemma should_below_threshold (zl : zerolog.Logger) lvl :
  lvl < zerolog.level zl -> zerolog.should GlobalLevel zl lvl = false.
Proof.
  intros H. unfold zerolog.should. destruct (negb (zerolog.w zl)); [reflexivity|].
  destruct (Z.ltb_spec lvl (zerolog.level zl)); [reflexivity|lia].
Qed.

Lemma message_filtered (sel : Selector) l ctx msg args (s : State) :
  sel (Logger_Logger l) = None ->
  (let* ev := zerolog.Func (sel (Logger_Logger l)) (custom (Logger_Config l) ctx) in
   zerolog.Msgf Sprintf ev msg args) s = (tt, s).
Proof. intros H. rewrite H. reflexivity. Qed.

Lemma Trace_all_filtered l ctx begin f err (s : State) :
  (err <> None -> errLevel (Logger_Config l) err (Logger_Logger l) = None) ->
  slowLevel (Logger_Config l) (Logger_Logger l) = None ->
  dumpLevel (Logger_Config l) (Logger_Logger l) = None ->
  Trace l ctx begin f err s = (tt, s).
Proof.
  intros He Hs Hd. destruct s as [out n]. rewrite Trace_run. cbv zeta.
  assert (Htail : Trace_slow_or_dump l ctx (Since begin) f (out, n) = (tt, (out, n))).
  { rewrite Trace_slow_or_dump_run. cbv zeta. rewrite Hs, Hd.
    rewrite !customized_disabled by reflexivity.
    destruct (slow _ _); simpl; rewrite app_nil_r, Nat.add_0_r; reflexivity. }
  destruct err as [x|]; [|exact Htail].
  rewrite He by discriminate. rewrite customized_disabled by reflexivity. exact Htail.
Qed.

(** X9: after [LogMode] at [Silent] or below, the returned adapter is
    mute: [Info], [Warn] and [Error] leave the state as it is, and so does
    [Trace], without invoking the supplier, as long as the three level
    selectors of the configuration are the default ones. *)
Theorem LogMode_Silent_mutes (h : heap) l s0 lv :
  h !! l = Some s0 ->
  lv <= logger.Silent ->
  exists l' h' s',
    LogMode h l lv = Some (l', h') /\ h' !! l' = Some s' /\
    (forall ctx msg args (st : State),
       Info s' ctx msg args st = (tt, st) /\
       Warn s' ctx msg args st = (tt, st) /\
       Error s' ctx msg args st = (tt, st)) /\
    (ErrorLevel (Logger_Config s0) = None ->
     SlowLevel (Logger_Config s0) = None ->
     DumpLevel (Logger_Config s0) = None ->
     forall ctx begin f err (st : State), Trace s' ctx begin f err st = (tt, st)).
Proof.
  intros Hl Hlv. rewrite (LogMode_run h l s0 lv Hl).
  eexists _, _, _. split; [reflexivity|]. split; [apply lookup_insert_eq|].
  assert (Hmap : DefaultLogLevelMap lv = zerolog.Disabled).
  { unfold DefaultLogLevelMap. destruct (Z.leb_spec lv logger.Silent); [reflexivity|lia]. }
  rewrite Hmap.
  assert (Hnone : forall lvl, lvl < zerolog.Disabled ->
            zerolog.newEvent GlobalLevel
              (zerolog.Logger_Level (Logger_Logger s0) zerolog.Disabled) lvl = None).
  { intros lvl Hlt. rewrite newEvent_cases, should_below_threshold; [reflexivity|exact Hlt]. }
  split.
  - intros ctx msg args st. unfold Info, Warn, Error.
    split; [|split];
      apply (message_filtered (fun zl => zerolog.newEvent GlobalLevel zl _)); simpl;
      apply Hnone; reflexivity.
  - intros He Hs Hd ctx begin f err st. apply Trace_all_filtered; simpl.
    + intros _. unfold errLevel. rewrite He. unfold UseError, zerolog.Logger_Error.
      rewrite Hnone by reflexivity. destruct err; reflexivity.
    + unfold slowLevel, level. rewrite Hs. apply Hnone. reflexivity.
    + unfold dumpLevel, level. rewrite Hd. apply Hnone. reflexivity.
Qed.

Lemma Trace_dump_run l ctx begin f (s : State) :
  slow (Logger_Config l) (Since begin) = false ->
  Trace l ctx begin f None s =
    (tt, (fst s ++
            line_of (customized (Logger_Config l) ctx
                       (dumpLevel (Logger_Config l) (Logger_Logger l)))
              ((if DumpWithDuration (Logger_Config l)
                then [zerolog.FDur (durKey (Logger_Config l)) (Since begin)] else [])
                 ++ zerolog.FStr (sqlKey (Logger_Config l)) (fst (f (snd s)))
                      :: rows_field (Logger_Config l) (snd (f (snd s))))
              "dump sql",
          (snd s + length
             (line_of (customized (Logger_Config l) ctx
                         (dumpLevel (Logger_Config l) (Logger_Logger l)))
                ((if DumpWithDuration (Logger_Config l)
                  then [zerolog.FDur (durKey (Logger_Config l)) (Since begin)] else [])
                   ++ zerolog.FStr (sqlKey (Logger_Config l)) (fst (f (snd s)))
                        :: rows_field (Logger_Config l) (snd (f (snd s))))
                "dump sql"))%nat)).
Proof.
  intros Hslow. destruct s as [out n]. rewrite Trace_run, Trace_slow_or_dump_run.
  cbv zeta. rewrite Hslow. reflexivity.
Qed.

(** X10: after [LogMode] at [Info] or above on a handle with a writer,
    under a process-wide threshold that lets the debug level through, a
    quick query without error gets its dump line at the debug level when
    [DumpLevel] is unset (no customization hook); with [DumpLevel] set to
    [UseTrace] the same call writes nothing and leaves the supplier alone. *)
Theorem LogMode_Info_shows_dump (h : heap) l s0 lv :
  h !! l = Some s0 ->
  logger.Warn < lv ->
  zerolog.w (Logger_Logger s0) = true ->
  GlobalLevel <= zerolog.DebugLevel ->
  exists l' h' s',
    LogMode h l lv = Some (l', h') /\ h' !! l' = Some s' /\
    forall ctx begin f (st : State),
      slow (Logger_Config s0) (Since begin) = false ->
      (DumpLevel (Logger_Config s0) = None -> Customize (Logger_Config s0) = None ->
       Trace s' ctx begin f None st =
         (tt, (fst st ++
                 [{| zerolog.llevel := zerolog.DebugLevel;
                     zerolog.fields :=
                       (if DumpWithDuration (Logger_Config s0)
                        then [zerolog.FDur (durKey (Logger_Config s0)) (Since begin)] else [])
                       ++ zerolog.FStr (sqlKey (Logger_Config s0)) (fst (f (snd st)))
                            :: rows_field (Logger_Config s0) (snd (f (snd st)));
                     zerolog.message := "dump sql" |}],
               S (snd st)))) /\
      (DumpLevel (Logger_Config s0) = Some UseTrace ->
       Trace s' ctx begin f None st = (tt, st)).
Proof.
  intros Hl Hlv Hw Hgl. rewrite (LogMode_run h l s0 lv Hl).
  eexists _, _, _. split; [reflexivity|]. split; [apply lookup_insert_eq|].
  assert (Hmap : DefaultLogLevelMap lv = zerolog.DebugLevel).
  { unfold DefaultLogLevelMap, logger.Silent, logger.Error, logger.Warn in *.
    destruct (Z.leb_spec lv 1); [lia|].
    destruct (Z.eqb_spec lv 2); [lia|]. destruct (Z.eqb_spec lv 3); [lia|reflexivity]. }
  rewrite Hmap. intros ctx begin f st Hslow.
  rewrite Trace_dump_run by exact Hslow. simpl Logger_Config. simpl Logger_Logger.
  split.
  - intros Hd Hnil.
    assert (Hev : customized (Logger_Config s0) ctx
                    (dumpLevel (Logger_Config s0)
                       (zerolog.Logger_Level (Logger_Logger s0) zerolog.DebugLevel)) =
                  Some {| zerolog.elevel := zerolog.DebugLevel; zerolog.buf := [] |}).
    { unfold dumpLevel, level, customized, zerolog.Func, custom. rewrite Hd, Hnil.
      unfold UseDebug, zerolog.Logger_Debug.
      assert (Hs : zerolog.should GlobalLevel
                     (zerolog.Logger_Level (Logger_Logger s0) zerolog.DebugLevel)
                     zerolog.DebugLevel = true).
      { apply should_spec. simpl. repeat split; [exact Hw|lia|exact Hgl]. }
      rewrite newEvent_cases, Hs. reflexivity. }
    rewrite Hev. simpl. rewrite Nat.add_1_r. reflexivity.
  - intros Hd.
    assert (Hev : customized (Logger_Config s0) ctx
                    (dumpLevel (Logger_Config s0)
                       (zerolog.Logger_Level (Logger_Logger s0) zerolog.DebugLevel)) = None).
    { unfold dumpLevel, level. rewrite Hd. unfold UseTrace, zerolog.Logger_Trace.
      rewrite newEvent_cases, should_below_threshold by (simpl; reflexivity).
      apply customized_disabled. reflexivity. }
    rewrite Hev. simpl. rewrite app_nil_r, Nat.add_0_r. destruct st; reflexivity.
Qed.

(** X11: [LogMode] on an address that holds no [Logger] fails; on one
    that does, each call allocates one more struct, and of two calls in a
    row the second decides: the adapter it returns has the original handle
    with the second threshold and the original [Config], at an address
    different from the two before it, both of which keep their structs. *)
Theorem LogMode_twice (h : heap) l lv1 lv2 :
  (h !! l = None -> LogMode h l lv1 = None) /\
  (forall s0, h !! l = Some s0 ->
     exists l1 h1 l2 h2,
       LogMode h l lv1 = Some (l1, h1) /\ LogMode h1 l1 lv2 = Some (l2, h2) /\
       h2 !! l2 = Some {| Logger_Logger :=
                            {| zerolog.w := zerolog.w (Logger_Logger s0);
                               zerolog.level := DefaultLogLevelMap lv2 |};
                          Logger_Config := Logger_Config s0 |} /\
       l2 <> l /\ l2 <> l1 /\ l1 <> l /\
       h2 !! l = Some s0 /\ h2 !! l1 = h1 !! l1 /\
       size h1 = S (size h) /\ size h2 = S (S (size h))).
Proof.
  split.
  - intros Hl. unfold LogMode. rewrite Hl. reflexivity.
  - intros s0 Hl. rewrite (LogMode_run h l s0 lv1 Hl).
    pose proof (fresh_not_allocated h) as Hf1.
    set (l1 := fresh (dom h)) in *.
    set (s1 := {| Logger_Logger :=
                    zerolog.Logger_Level (Logger_Logger s0) (DefaultLogLevelMap lv1);
                  Logger_Config := Logger_Config s0 |}).
    set (h1 := <[l1:=s1]> h).
    assert (H1 : h1 !! l1 = Some s1) by apply lookup_insert_eq.
    pose proof (fresh_not_allocated h1) as Hf2.
    set (l2 := fresh (dom h1)) in *.
    assert (Hne1 : l1 <> l) by (intros E; rewrite E in Hf1; congruence).
    assert (Hne2 : l2 <> l1) by (intros E; rewrite E in Hf2; congruence).
    assert (Hl1 : h1 !! l = Some s0).
    { unfold h1. rewrite lookup_insert_ne by exact Hne1. exact Hl. }
    assert (Hne3 : l2 <> l) by (intros E; rewrite E in Hf2; congruence).
    exists l1, h1, l2,
      (<[l2 := {| Logger_Logger :=
                    zerolog.Logger_Level (Logger_Logger s1) (DefaultLogLevelMap lv2);
                  Logger_Config := Logger_Config s1 |}]> h1).
    split; [reflexivity|]. split; [apply (LogMode_run h1 l1 s1 lv2 H1)|].
    split; [apply lookup_insert_eq|].
    split; [exact Hne3|]. split; [exact Hne2|]. split; [exact Hne1|].
    split; [rewrite lookup_insert_ne by exact Hne3; exact Hl1|].
    split; [apply lookup_insert_ne; exact Hne2|].
    assert (Hsz : size h1 = S (size h)) by (apply map_size_insert_None; exact Hf1).
    split; [exact Hsz|]. rewrite map_size_insert_None by exact Hf2. rewrite Hsz. reflexivity.
Qed.

(** *** More on error classification *)


(** *** Source location *)

Lemma prefix_spec p s :
  String.prefix p s = true <-> exists b, s = (p ++ b)%string.
Proof.
  revert s. induction p as [|a p IH]; intros s.
  - split; [intros _; exists s; reflexivity|intros _; destruct s; reflexivity].
  - destruct s as [|c s]; simpl.
    + split; [discriminate|]. intros (b & Hb). discriminate.
    + destruct (Ascii.ascii_dec a c) as [->|Hne].
      * rewrite IH. split; intros (b & Hb); exists b.
        -- rewrite Hb. reflexivity.
        -- injection Hb. auto.
      * split; [discriminate|]. intros (b & Hb). injection Hb. intros _ Hac. congruence.
Qed.

(** [strings.Contains] decides the occurrence of a substring. *)
Lemma Contains_spec s substr :
  strings.Contains s substr = true <->
  exists a b, s = (a ++ substr ++ b)%string.
Proof.
  induction s as [|c s IH].
  - change (strings.Contains "" substr) with (String.prefix substr "" || false).
    rewrite orb_false_r, prefix_spec. split.
    + intros (b & Hb). exists "", b. exact Hb.
    + intros (a & b & Hab). destruct a as [|c a]; [exists b; exact Hab|discriminate].
  - change (strings.Contains (String c s) substr)
      with (String.prefix substr (String c s) || strings.Contains s substr).
    rewrite orb_true_iff, prefix_spec, IH. split.
    + intros [(b & Hb)|(a & b & Hab)].
      * exists "", b. exact Hb.
      * exists (String c a), b. rewrite Hab. reflexivity.
    + intros (a & b & Hab). destruct a as [|c' a].
      * left. exists b. exact Hab.
      * right. exists a, b. injection Hab. auto.
Qed.

Lemma Caller_drop stack cnt fr :
  runtime.Caller stack cnt = Some fr -> drop cnt stack = fr :: drop (S cnt) stack.
Proof.
  unfold runtime.Caller. revert cnt. induction stack as [|x stack IH]; intros [|cnt]; simpl;
    try discriminate.
  - intros [= ->]. reflexivity.
  - intros H. rewrite (IH cnt H). reflexivity.
Qed.

Lemma Caller_past_end stack cnt :
  runtime.Caller stack cnt = None <-> (length stack <= cnt)%nat.
Proof. apply nth_error_None. Qed.

Section LogSource_properties.
Variable Ev : Type.
Variable Str : Ev -> string -> string -> Ev.
Variable Int : Ev -> string -> Z -> Ev.

(** With fuel for the rest of the stack, the loop finds the first frame,
    from [cnt] outwards, whose file contains a keyword. *)
Lemma LogSource_loop_find keywords stack fuel cnt ev :
  (length stack <= cnt + fuel)%nat ->
  LogSource_loop Ev Str Int keywords stack fuel cnt ev =
    match find (fun fr => existsb (strings.Contains (runtime.file fr)) keywords)
               (drop cnt stack) with
    | Some fr => Int (Str ev "source_file" (runtime.file fr)) "source_line" (runtime.line fr)
    | None => ev
    end.
Proof.
  revert cnt. induction fuel as [|fuel IH]; intros cnt Hlen; simpl.
  - rewrite drop_ge by lia. reflexivity.
  - destruct (runtime.Caller stack cnt) as [fr|] eqn:Hc.
    + rewrite (Caller_drop _ _ _ Hc). simpl.
      destruct (existsb (strings.Contains (runtime.file fr)) keywords); [reflexivity|].
      apply IH. lia.
    + apply Caller_past_end in Hc. rewrite drop_ge by lia. reflexivity.
Qed.

Lemma find_first {A} (P : A -> bool) l i x :
  nth_error l i = Some x -> P x = true ->
  (forall j y, (j < i)%nat -> nth_error l j = Some y -> P y = false) ->
  find P l = Some x.
Proof.
  revert i. induction l as [|a l IH]; intros [|i]; simpl; try discriminate.
  - intros [= ->] Hx _. rewrite Hx. reflexivity.
  - intros Hi Hx Hbefore. rewrite (Hbefore 0%nat a) by (simpl; (lia || reflexivity)).
    apply (IH i Hi Hx). intros j y Hj Hy. apply (Hbefore (S j) y); [lia|exact Hy].
Qed.

Lemma existsb_Contains fn keywords :
  existsb (strings.Contains fn) keywords = true <->
  exists kw, In kw keywords /\ exists a b, fn = (a ++ kw ++ b)%string.
Proof.
  rewrite existsb_exists. split; intros (kw & Hin & H); exists kw; split; auto;
    apply Contains_spec; exact H.
Qed.

(** X13: the callback of [LogSource] looks at the frames of the stack
    from the third one outwards (skip 2).  If frame [i] is the first of them
    whose file name has one of the keywords as a substring, the event gets
    that frame's file as [source_file] and then its line as [source_line];
    if no such frame exists, in particular without keywords or on a stack
    of at most two frames, the event is returned as it was given. *)
Theorem LogSource_first_match keywords ctx stack ev :
  (forall i fr,
     (2 <= i)%nat -> nth_error stack i = Some fr ->
     (exists kw, In kw keywords /\ exists a b, runtime.file fr = (a ++ kw ++ b)%string) ->
     (forall j fr' kw, (2 <= j < i)%nat -> nth_error stack j = Some fr' -> In kw keywords ->
        ~ exists a b, runtime.file fr' = (a ++ kw ++ b)%string) ->
     LogSource Ev Str Int keywords ctx stack ev =
       Int (Str ev "source_file" (runtime.file fr)) "source_line" (runtime.line fr)) /\
  ((forall i fr kw, (2 <= i)%nat -> nth_error stack i = Some fr -> In kw keywords ->
      ~ exists a b, runtime.file fr = (a ++ kw ++ b)%string) ->
   LogSource Ev Str Int keywords ctx stack ev = ev) /\
  (keywords = [] \/ (length stack <= 2)%nat ->
   LogSource Ev Str Int keywords ctx stack ev = ev).
Proof.
  assert (Hrun : LogSource Ev Str Int keywords ctx stack ev =
            match find (fun fr => existsb (strings.Contains (runtime.file fr)) keywords)
                       (drop 2 stack) with
            | Some fr => Int (Str ev "source_file" (runtime.file fr)) "source_line"
                           (runtime.line fr)
            | None => ev
            end).
  { unfold LogSource. apply LogSource_loop_find. lia. }
  assert (Hnone : (forall i fr kw, (2 <= i)%nat -> nth_error stack i = Some fr ->
                     In kw keywords ->
                     ~ exists a b, runtime.file fr = (a ++ kw ++ b)%string) ->
                  LogSource Ev Str Int keywords ctx stack ev = ev).
  { intros Hno. rewrite Hrun.
    destruct (find _ (drop 2 stack)) as [fr|] eqn:Hfind; [|reflexivity].
    apply find_some in Hfind. destruct Hfind as [Hin Hhit].
    apply In_nth_error in Hin. destruct Hin as (k & Hk).
    rewrite nth_error_skipn in Hk.
    apply existsb_Contains in Hhit. destruct Hhit as (kw & Hkw & Hsub).
    exfalso. apply (Hno (2 + k)%nat fr kw); [lia|exact Hk|exact Hkw|exact Hsub]. }
  split; [|split].
  - intros i fr Hi Hfr Hhit Hbefore. rewrite Hrun.
    rewrite (find_first _ (drop 2 stack) (i - 2) fr); [reflexivity| | |].
    + rewrite nth_error_skipn. replace (2 + (i - 2))%nat with i by lia. exact Hfr.
    + apply existsb_Contains. exact Hhit.
    + intros j y Hj Hy. rewrite nth_error_skipn in Hy.
      destruct (existsb (strings.Contains (runtime.file y)) keywords) eqn:E; [|reflexivity].
      apply existsb_Contains in E. destruct E as (kw & Hkw & Hsub).
      exfalso. apply (Hbefore (2 + j)%nat y kw); [lia|exact Hy|exact Hkw|exact Hsub].
  - exact Hnone.
  - intros [->|Hshort]; apply Hnone.
    + intros i fr kw _ _ [].
    + intros i fr kw Hi Hfr _.
      assert (Hlt : (i < length stack)%nat) by (apply nth_error_Some; congruence). lia.
Qed.
End LogSource_properties.

(** *** Hooks and helpers together with [Trace] *)

(** X14: under [DebugCommonErr] a common error is logged at the debug
    level.  On a handle whose threshold lies above debug the call is the call
    with a nil error; on the adapter [LogMode] returns for [Info] (writer
    present, process-wide threshold not above debug, no customization hook)
    the error line is written at the debug level, with the error attached
    once. *)
Theorem DebugCommonErr_shown_by_LogMode (h : heap) l s0 lv x :
  h !! l = Some s0 ->
  ErrorLevel (Logger_Config s0) = Some DebugCommonErr ->
  CommonError (Some x) = true ->
  (zerolog.DebugLevel < zerolog.level (Logger_Logger s0) ->
   forall ctx begin f (st : State),
     Trace s0 ctx begin f (Some x) st = Trace s0 ctx begin f None st) /\
  (logger.Warn < lv ->
   zerolog.w (Logger_Logger s0) = true ->
   GlobalLevel <= zerolog.DebugLevel ->
   Customize (Logger_Config s0) = None ->
   exists l' h' s',
     LogMode h l lv = Some (l', h') /\ h' !! l' = Some s' /\
     forall ctx begin f (st : State),
       Trace s' ctx begin f (Some x) st =
         (tt, (fst st ++
                 [{| zerolog.llevel := zerolog.DebugLevel;
                     zerolog.fields :=
                       zerolog.FErr x
                         :: zerolog.FStr (sqlKey (Logger_Config s0)) (fst (f (snd st)))
                         :: rows_field (Logger_Config s0) (snd (f (snd st)));
                     zerolog.message := "a sql error occurred" |}],
               S (snd st)))).
Proof.
  intros Hl Hsel Hcommon.
  assert (He : forall zl, errLevel (Logger_Config s0) (Some x) zl =
                          zerolog.newEvent GlobalLevel zl zerolog.DebugLevel).
  { intros zl. unfold errLevel. rewrite Hsel. unfold DebugCommonErr, LogErrorAt.
    rewrite Hcommon. reflexivity. }
  split.
  - intros Hlvl ctx begin f [out n]. rewrite !Trace_run. cbv zeta.
    rewrite He, newEvent_cases, should_below_threshold by exact Hlvl.
    rewrite customized_disabled by reflexivity. reflexivity.
  - intros Hlv Hw Hgl Hnil. rewrite (LogMode_run h l s0 lv Hl).
    eexists _, _, _. split; [reflexivity|]. split; [apply lookup_insert_eq|].
    assert (Hmap : DefaultLogLevelMap lv = zerolog.DebugLevel).
    { unfold DefaultLogLevelMap, logger.Silent, logger.Error, logger.Warn in *.
      destruct (Z.leb_spec lv 1); [lia|].
      destruct (Z.eqb_spec lv 2); [lia|]. destruct (Z.eqb_spec lv 3); [lia|reflexivity]. }
    rewrite Hmap. intros ctx begin f st.
    pose proof (Trace_error_line
                  {| Logger_Logger :=
                       zerolog.Logger_Level (Logger_Logger s0) zerolog.DebugLevel;
                     Logger_Config := Logger_Config s0 |}
                  ctx begin f x st
                  {| zerolog.elevel := zerolog.DebugLevel; zerolog.buf := [] |}) as Hrun.
    simpl in Hrun. apply Hrun; [exact Hnil| |discriminate].
    rewrite He. apply newEvent_enabled; [discriminate|].
    apply should_spec. simpl. repeat split; [exact Hw|lia|exact Hgl].
Qed.

(** X15: a customization hook that discards every event it is given
    mutes the adapter: [Info], [Warn], [Error] and [Trace] write nothing, and
    [Trace] does not invoke the supplier. *)
Theorem discarding_hook_mutes l g :
  Customize (Logger_Config l) = Some g ->
  (forall ctx e, zerolog.elevel (g ctx e) = zerolog.Disabled) ->
  forall ctx (st : State),
    (forall msg args,
       Info l ctx msg args st = (tt, st) /\
       Warn l ctx msg args st = (tt, st) /\
       Error l ctx msg args st = (tt, st)) /\
    (forall begin f err, Trace l ctx begin f err st = (tt, st)).
Proof.
  intros Hg Hdiscard ctx st.
  assert (Hoff : forall ev, zerolog.Enabled (customized (Logger_Config l) ctx ev) = false).
  { intros ev. unfold customized, zerolog.Func, custom. rewrite Hg.
    destruct (zerolog.Enabled ev) eqn:E; [|exact E].
    destruct ev as [e|]; [|discriminate]. simpl. rewrite Hdiscard. reflexivity. }
  assert (Hsame : forall lines, lines = [] ->
            (tt, (fst st ++ lines, (snd st + length lines)%nat)) = (tt, st)).
  { intros lines ->. simpl. rewrite app_nil_r, Nat.add_0_r. destruct st; reflexivity. }
  split.
  - intros msg args. unfold Info, Warn, Error.
    split; [|split];
      [rewrite (message_run (zerolog.Logger_Info GlobalLevel))
      |rewrite (message_run (zerolog.Logger_Warn GlobalLevel))
      |rewrite (message_run (zerolog.Logger_Error GlobalLevel))];
      rewrite (line_of_disabled _ _ _ (Hoff _)); simpl;
      rewrite app_nil_r, Nat.add_0_r; destruct st; reflexivity.
  - intros begin f err.
    destruct (Trace_cases l ctx begin f err st) as (new & Hrun & Hnew).
    rewrite Hrun. apply Hsame.
    destruct Hnew as [(x & -> & _ & ->)|[(_ & _ & ->)|(_ & _ & ->)]];
      apply line_of_disabled, Hoff.
Qed.

End gorm0log.

(** ** Concrete calls

    A host whose clock reads four seconds, a console logger at a given
    threshold under the default process-wide threshold, and a query
    reporting one affected row. *)

Definition clock : Z -> Z := fun begin => 4000000000 - begin.

Definition console (lvl : zerolog.Level) : zerolog.Logger :=
  {| zerolog.w := true; zerolog.level := lvl |}.

Definition adapter (lvl : zerolog.Level) (c : Config unit) : Logger unit :=
  {| Logger_Logger := console lvl; Logger_Config := c |}.

Definition slow3s : Config unit :=
  {| SlowThreshold := 3000000000; SlowLevel := None; Duration := ""; ErrorLevel := None;
     ParameterizedQueries := false; DumpLevel := None; DumpWithDuration := false;
     SQL := ""; AffectedRows := ""; Customize := None |}.

Definition ignoring : Config unit :=
  {| SlowThreshold := 0; SlowLevel := None; Duration := "";
     ErrorLevel := Some (IgnoreCommonErr zerolog.TraceLevel);
     ParameterizedQueries := true; DumpLevel := None; DumpWithDuration := false;
     SQL := ""; AffectedRows := ""; Customize := None |}.

Definition query : Supplier := fun _ => ("SELECT 1", 1).

Definition trace (l : Logger unit) (f : Supplier) (err : errors.error) : M unit :=
  Trace unit Z clock zerolog.TraceLevel l tt 0 f err.

(** C1, as stated, fails: a logger at the warn threshold with default
    settings writes nothing for a fast query without error. *)
Lemma Trace_may_write_nothing :
  length (path_lines (written_by (trace (adapter zerolog.WarnLevel (Config_zero unit)) query None)
                        ([], 0%nat))) <> 1%nat.
Proof. vm_compute. discriminate. Qed.

Lemma Trace_at_most_one_message_witness :
  length (path_lines (written_by (trace (adapter zerolog.DebugLevel (Config_zero unit)) query None)
                        ([], 0%nat))) = 1%nat.
Proof.
  pose proof (Trace_at_most_one_message unit Z clock zerolog.TraceLevel
                (adapter zerolog.DebugLevel (Config_zero unit)) tt 0 query None ([], 0%nat)) as H.
  cbv zeta in H. destruct H as (_ & _ & H & _). apply H. reflexivity.
Defined.

(** C3, as stated, fails: verbosity 0 is not a value gorm declares, and it
    maps to [Disabled], not to the branch of [Info]. *)
Lemma unrecognized_not_always_Info :
  recognized 0 = false /\
  DefaultLogLevelMap 0 <> DefaultLogLevelMap logger.Info /\
  WithTimeTracking 0 <> WithTimeTracking logger.Info.
Proof. repeat split; vm_compute; discriminate. Qed.

Lemma level_maps_total_witness :
  DefaultLogLevelMap 0 = zerolog.Disabled /\
  WithTimeTracking 2 = zerolog.ErrorLevel /\
  DefaultLogLevelMap 3 = zerolog.WarnLevel /\
  WithTimeTracking 5 = WithTimeTracking logger.Info.
Proof.
  split; [|split; [|split]].
  - apply (level_maps_total 0). vm_compute. discriminate.
  - apply (level_maps_total 2). reflexivity.
  - apply (level_maps_total 3). reflexivity.
  - apply (level_maps_total 5). reflexivity.
Defined.

Definition generic : errors.error_value := errors.errorString 7 "no such table".

Definition notFound : errors.error_value :=
  errors.wrapError "load user" gorm.recordNotFound.


(** C4, as stated, fails: at the error threshold the slow event of a
    four-second query against a three-second limit is filtered, and no slow
    message is written. *)
Lemma slow_message_may_be_filtered :
  stops_at_error unit zerolog.TraceLevel slow3s tt (console zerolog.ErrorLevel) None = false /\
  0 < SlowThreshold unit slow3s /\
  SlowThreshold unit slow3s <= clock 0 /\
  ~ (exists ln,
       In ln (written_by (trace (adapter zerolog.ErrorLevel slow3s) query None) ([], 0%nat)) /\
       zerolog.message ln = "sql query time exceeds threshold").
Proof.
  split; [reflexivity|]. split; [reflexivity|]. split; [discriminate|].
  intros (ln & Hin & _). vm_compute in Hin. exact Hin.
Qed.

(** Threshold three seconds, a four-second query, no error, warn
    threshold: one slow line at warn level with the duration and the SQL. *)
Lemma Trace_slow_path_witness :
  written_by (trace (adapter zerolog.WarnLevel slow3s) query None) ([], 0%nat) =
    [{| zerolog.llevel := zerolog.WarnLevel;
        zerolog.fields := [zerolog.FDur "duration" 4000000000;
                           zerolog.FStr "sql" "SELECT 1";
                           zerolog.FInt64 "affected_rows" 1];
        zerolog.message := "sql query time exceeds threshold" |}].
Proof.
  pose proof (Trace_slow_path unit Z clock zerolog.TraceLevel
                (adapter zerolog.WarnLevel slow3s) tt 0 query None ([], 0%nat)) as H.
  cbv zeta in H.
  destruct (H eq_refl eq_refl ltac:(discriminate)) as (Hslow & _ & _).
  destruct (Hslow eq_refl) as (e & He & Hout).
  injection He as <-. exact Hout.
Defined.

(** The zero [Logger] has no writer: every event is nil and the supplier
    is left alone. *)
Lemma supplier_called_at_most_once_witness :
  calls_by (Trace unit Z clock zerolog.TraceLevel (Logger_zero unit) tt 0 query (Some generic))
    ([], 0%nat) = 0%nat.
Proof.
  pose proof (supplier_called_at_most_once unit Z clock zerolog.TraceLevel
                (Logger_zero unit) tt 0 query (Some generic) ([], 0%nat)) as H.
  cbv zeta in H. destruct H as (_ & _ & _ & _ & H).
  apply H; [intros _|..]; reflexivity.
Defined.

Definition dump_line : zerolog.Line :=
  {| zerolog.llevel := zerolog.DebugLevel;
     zerolog.fields := [zerolog.FStr "sql" "SELECT 1"; zerolog.FInt64 "affected_rows" 1];
     zerolog.message := "dump sql" |}.


Definition one_logger : gmap loc (Logger unit) :=
  {[ 1%positive := adapter zerolog.TraceLevel (Config_zero unit) ]}.

Lemma LogMode_leaves_receiver_witness :
  exists l' h',
    LogMode unit one_logger 1%positive logger.Info = Some (l', h') /\
    l' <> 1%positive /\
    h' !! 1%positive = Some (adapter zerolog.TraceLevel (Config_zero unit)).
Proof.
  destruct (LogMode_leaves_receiver unit Z unit clock (fun format _ => format)
              zerolog.TraceLevel one_logger 1%positive
              (adapter zerolog.TraceLevel (Config_zero unit)) logger.Info eq_refl)
    as (l' & h' & Hrun & Hne & _ & _ & Hkeep & _).
  exists l', h'. split; [exact Hrun|]. split; [exact Hne|exact Hkeep].
Defined.

(** A handle set up with [WithTimeTracking] at [Info] emits trace events;
    after [LogMode] at [Info] the adapter does not. *)
Lemma LogMode_installs_DefaultLogLevelMap_witness :
  zerolog.Enabled (UseTrace zerolog.TraceLevel (console (WithTimeTracking logger.Info))) = true /\
  exists l' h' s',
    LogMode unit one_logger 1%positive logger.Info = Some (l', h') /\
    h' !! l' = Some s' /\
    zerolog.level (Logger_Logger unit s') = DefaultLogLevelMap logger.Info /\
    UseTrace zerolog.TraceLevel (Logger_Logger unit s') = None.
Proof.
  destruct (LogMode_installs_DefaultLogLevelMap unit zerolog.TraceLevel one_logger 1%positive
              (adapter zerolog.TraceLevel (Config_zero unit)) logger.Info eq_refl)
    as (l' & h' & s' & Hrun & Hs' & Hlvl & _ & _ & Hoff & Hon).
  split.
  - apply Hon; [reflexivity|reflexivity|]. vm_compute. discriminate.
  - exists l', h', s'. auto.
Defined.

Lemma ParamsFilter_redacts_witness :
  ParamsFilter unit Z (adapter zerolog.DebugLevel ignoring) tt "SELECT ?" (Some [1; 2]) =
    ("SELECT ?", None) /\
  ParamsFilter unit Z (adapter zerolog.DebugLevel slow3s) tt "SELECT ?" (Some [1; 2]) =
    ("SELECT ?", Some [1; 2]).
Proof.
  split.
  - apply (ParamsFilter_redacts unit Z (adapter zerolog.DebugLevel ignoring)). reflexivity.
  - apply (ParamsFilter_redacts unit Z (adapter zerolog.DebugLevel slow3s)). reflexivity.
Defined.


(** ** Concrete calls, continued *)

Definition sprintf : string -> list unit -> string := fun format _ => format.

Definition quiet : Config unit :=
  {| SlowThreshold := 0; SlowLevel := None; Duration := ""; ErrorLevel := None;
     ParameterizedQueries := false; DumpLevel := Some (Ignore zerolog.TraceLevel);
     DumpWithDuration := false; SQL := ""; AffectedRows := ""; Customize := None |}.

Definition debugging : Config unit :=
  {| SlowThreshold := 0; SlowLevel := None; Duration := "";
     ErrorLevel := Some (DebugCommonErr zerolog.TraceLevel);
     ParameterizedQueries := false; DumpLevel := None; DumpWithDuration := false;
     SQL := ""; AffectedRows := ""; Customize := None |}.

Definition discarding : Config unit :=
  {| SlowThreshold := 0; SlowLevel := None; Duration := ""; ErrorLevel := None;
     ParameterizedQueries := false; DumpLevel := None; DumpWithDuration := false;
     SQL := ""; AffectedRows := "";
     Customize := Some (fun _ e => {| zerolog.elevel := zerolog.Disabled;
                                      zerolog.buf := zerolog.buf e |}) |}.

Definition warn_logger : gmap loc (Logger unit) :=
  {[ 1%positive := adapter zerolog.WarnLevel debugging ]}.

Definition frames : list runtime.Frame :=
  [ {| runtime.file := "gorm0log/helper.go"; runtime.line := 26 |};
    {| runtime.file := "gorm0log/config.go"; runtime.line := 128 |};
    {| runtime.file := "gorm/callbacks.go"; runtime.line := 134 |};
    {| runtime.file := "app/user_test.go"; runtime.line := 53 |} ].

(** A toy event builder: the string fields and the int fields it got. *)
Definition toy : Type := list (string * string) * list (string * Z).
Definition toy_Str (ev : toy) (k v : string) : toy := (fst ev ++ [(k, v)], snd ev).
Definition toy_Int (ev : toy) (k : string) (i : Z) : toy := (fst ev, snd ev ++ [(k, i)]).


Lemma plain_messages_monotone_witness :
  written_by (Error unit unit sprintf zerolog.TraceLevel
                (adapter zerolog.WarnLevel (Config_zero unit)) tt "slow down" [])
    ([], 0%nat) <> [].
Proof.
  destruct (plain_messages_monotone unit unit sprintf zerolog.TraceLevel
              (adapter zerolog.WarnLevel (Config_zero unit)) tt "slow down" []
              ([], 0%nat) eq_refl) as [_ H].
  apply H. vm_compute. discriminate.
Defined.

Lemma Trace_dump_path_witness :
  trace (adapter zerolog.DebugLevel (Config_zero unit)) query None ([], 0%nat) =
    (tt, ([dump_line], 1%nat)).
Proof.
  destruct (Trace_dump_path unit Z clock zerolog.TraceLevel
              (adapter zerolog.DebugLevel (Config_zero unit)) tt 0 query None ([], 0%nat)
              eq_refl eq_refl) as [H _].
  destruct (H eq_refl) as (e & He & Hrun). injection He as <-. exact Hrun.
Defined.

Lemma Trace_message_tells_branch_witness :
  SlowThreshold unit (Config_zero unit) <= 0 \/
  clock 0 < SlowThreshold unit (Config_zero unit).
Proof.
  destruct (Trace_message_tells_branch unit Z clock zerolog.TraceLevel
              (adapter zerolog.DebugLevel (Config_zero unit)) tt 0 query None ([], 0%nat)
              dump_line (or_introl eq_refl)) as (_ & _ & H).
  apply H. reflexivity.
Defined.


Lemma Trace_error_attached_witness :
  written_by (trace (adapter zerolog.DebugLevel (Config_zero unit)) query (Some generic))
    ([], 0%nat) =
    [{| zerolog.llevel := zerolog.ErrorLevel;
        zerolog.fields := [zerolog.FErr generic; zerolog.FErr generic;
                           zerolog.FStr "sql" "SELECT 1";
                           zerolog.FInt64 "affected_rows" 1];
        zerolog.message := "a sql error occurred" |}].
Proof.
  destruct (Trace_error_attached unit Z clock zerolog.TraceLevel
              (adapter zerolog.DebugLevel (Config_zero unit)) tt 0 query generic ([], 0%nat)
              eq_refl eq_refl) as [H _].
  apply H. reflexivity.
Defined.

Lemma IgnoreCommonErr_is_trace_level_witness :
  trace (adapter zerolog.InfoLevel ignoring) query (Some notFound) ([], 0%nat) =
  trace (adapter zerolog.InfoLevel ignoring) query None ([], 0%nat).
Proof.
  destruct (IgnoreCommonErr_is_trace_level unit Z clock zerolog.TraceLevel
              (adapter zerolog.InfoLevel ignoring) tt 0 query notFound ([], 0%nat)
              eq_refl eq_refl) as [H _].
  apply H. reflexivity.
Defined.

Lemma Ignore_silences_branch_witness :
  trace (adapter zerolog.DebugLevel quiet) query None ([], 0%nat) = (tt, ([], 0%nat)).
Proof.
  destruct (Ignore_silences_branch unit Z clock zerolog.TraceLevel
              (adapter zerolog.DebugLevel quiet) tt 0 query None ([], 0%nat))
    as (_ & H & _).
  destruct (H eq_refl) as [_ Hrun]. apply Hrun; reflexivity.
Defined.

Lemma LogMode_Silent_mutes_witness :
  exists l' h' s',
    LogMode unit one_logger 1%positive logger.Silent = Some (l', h') /\
    h' !! l' = Some s' /\
    Trace unit Z clock zerolog.TraceLevel s' tt 0 query (Some generic) ([], 0%nat) =
      (tt, ([], 0%nat)).
Proof.
  destruct (LogMode_Silent_mutes unit Z unit clock sprintf zerolog.TraceLevel one_logger
              1%positive (adapter zerolog.TraceLevel (Config_zero unit)) logger.Silent
              eq_refl ltac:(reflexivity))
    as (l' & h' & s' & Hrun & Hs' & _ & Hmute).
  exists l', h', s'. split; [exact Hrun|]. split; [exact Hs'|].
  apply Hmute; reflexivity.
Defined.

Lemma LogMode_Info_shows_dump_witness :
  exists l' h' s',
    LogMode unit one_logger 1%positive logger.Info = Some (l', h') /\
    h' !! l' = Some s' /\
    Trace unit Z clock zerolog.TraceLevel s' tt 0 query None ([], 0%nat) =
      (tt, ([dump_line], 1%nat)).
Proof.
  destruct (LogMode_Info_shows_dump unit Z clock zerolog.TraceLevel one_logger
              1%positive (adapter zerolog.TraceLevel (Config_zero unit)) logger.Info
              eq_refl eq_refl eq_refl ltac:(discriminate))
    as (l' & h' & s' & Hrun & Hs' & Hdump).
  exists l', h', s'. split; [exact Hrun|]. split; [exact Hs'|].
  destruct (Hdump tt 0 query ([], 0%nat) eq_refl) as [H _].
  exact (H eq_refl eq_refl).
Defined.

Lemma LogMode_twice_witness :
  exists l1 h1 l2 h2,
    LogMode unit one_logger 1%positive logger.Silent = Some (l1, h1) /\
    LogMode unit h1 l1 logger.Info = Some (l2, h2) /\
    h2 !! l2 = Some (adapter zerolog.DebugLevel (Config_zero unit)) /\
    size h2 = 3%nat.
Proof.
  destruct (LogMode_twice unit one_logger 1%positive logger.Silent logger.Info) as [_ H].
  destruct (H (adapter zerolog.TraceLevel (Config_zero unit)) eq_refl)
    as (l1 & h1 & l2 & h2 & H1 & H2 & Hs & _ & _ & _ & _ & _ & _ & Hsize).
  exists l1, h1, l2, h2. split; [exact H1|]. split; [exact H2|]. split; [exact Hs|exact Hsize].
Defined.


Lemma LogSource_first_match_witness :
  LogSource unit toy toy_Str toy_Int ["_test.go"] tt frames ([], []) =
    ([("source_file", "app/user_test.go")], [("source_line", 53)]).
Proof.
  destruct (LogSource_first_match unit toy toy_Str toy_Int ["_test.go"] tt frames ([], []))
    as [H _].
  apply (H 3%nat {| runtime.file := "app/user_test.go"; runtime.line := 53 |}).
  - lia.
  - reflexivity.
  - exists "_test.go". split; [left; reflexivity|]. exists "app/user", "". reflexivity.
  - intros j fr' kw Hj Hfr Hkw Hsub.
    assert (j = 2%nat) as -> by lia.
    injection Hfr as <-. destruct Hkw as [<-|[]].
    apply Contains_spec in Hsub. vm_compute in Hsub. discriminate.
Defined.

Lemma DebugCommonErr_shown_by_LogMode_witness :
  Trace unit Z clock zerolog.TraceLevel (adapter zerolog.WarnLevel debugging) tt 0 query
    (Some notFound) ([], 0%nat) =
  Trace unit Z clock zerolog.TraceLevel (adapter zerolog.WarnLevel debugging) tt 0 query
    None ([], 0%nat) /\
  exists l' h' s',
    LogMode unit warn_logger 1%positive logger.Info = Some (l', h') /\
    h' !! l' = Some s' /\
    Trace unit Z clock zerolog.TraceLevel s' tt 0 query (Some notFound) ([], 0%nat) =
      (tt, ([{| zerolog.llevel := zerolog.DebugLevel;
                zerolog.fields := [zerolog.FErr notFound; zerolog.FStr "sql" "SELECT 1";
                                   zerolog.FInt64 "affected_rows" 1];
                zerolog.message := "a sql error occurred" |}], 1%nat)).
Proof.
  destruct (DebugCommonErr_shown_by_LogMode unit Z clock zerolog.TraceLevel warn_logger
              1%positive (adapter zerolog.WarnLevel debugging) logger.Info notFound
              eq_refl eq_refl eq_refl) as [Hhidden Hshown].
  split.
  - apply Hhidden. reflexivity.
  - destruct (Hshown eq_refl eq_refl ltac:(discriminate) eq_refl)
      as (l' & h' & s' & Hrun & Hs' & Hline).
    exists l', h', s'. split; [exact Hrun|]. split; [exact Hs'|]. apply Hline.
Defined.

Lemma discarding_hook_mutes_witness :
  trace (adapter zerolog.TraceLevel discarding) query (Some generic) ([], 0%nat) =
    (tt, ([], 0%nat)).
Proof.
  destruct (discarding_hook_mutes unit Z unit clock sprintf zerolog.TraceLevel
              (adapter zerolog.TraceLevel discarding) _ eq_refl (fun _ _ => eq_refl)
              tt ([], 0%nat)) as [_ H].
  apply H.
Defined.
